(** * Viewport2D damage classifier, compositor and KeyFuns names

    A shallow embedding of [viewport2d.go] and [keyfuns_string.go] of the
    gi toolkit, with the properties of the viewport's signal classifier,
    of compositing into a parent viewport, of the scoped bounds stack, of
    [Resize] / [BBox2D] and of the generated [KeyFuns] name table. *)

From Stdlib Require Import ZArith String Ascii List Bool Lia QArith Qround DecimalString.
From Stdlib Require DecimalZ.
From stdpp Require Import gmap.
Import ListNotations.

Local Open Scope Z_scope.

(** ** keyfuns_string.go *)

Module KeyFunsString.

Local Open Scope string_scope.

Definition _KeyFuns_name : string :=
  "KeyFunNilKeyFunMoveUpKeyFunMoveDownKeyFunMoveRightKeyFunMoveLeftKeyFunPageUpKeyFunPageDownKeyFunPageRightKeyFunPageLeftKeyFunHomeKeyFunEndKeyFunDocHomeKeyFunDocEndKeyFunWordRightKeyFunWordLeftKeyFunFocusNextKeyFunFocusPrevKeyFunEnterKeyFunAcceptKeyFunCancelSelectKeyFunSelectModeKeyFunSelectAllKeyFunAbortKeyFunEditItemKeyFunCopyKeyFunCutKeyFunPasteKeyFunBackspaceKeyFunBackspaceWordKeyFunDeleteKeyFunDeleteWordKeyFunKillKeyFunDuplicateKeyFunUndoKeyFunRedoKeyFunInsertKeyFunInsertAfterKeyFunGoGiEditorKeyFunZoomOutKeyFunZoomInKeyFunPrefsKeyFunRefreshKeyFunRecenterKeyFunCompleteKeyFunSearchKeyFunFindKeyFunJumpKeyFunHistPrevKeyFunHistNextKeyFunsN".

Definition _KeyFuns_index : list Z :=
  [0; 9; 21; 35; 50; 64; 76; 90; 105; 119; 129; 138; 151; 163; 178; 192;
   207; 222; 233; 245; 263; 279; 294; 305; 319; 329; 338; 349; 364; 383;
   395; 411; 421; 436; 446; 456; 468; 485; 501; 514; 526; 537; 550; 564;
   578; 590; 600; 610; 624; 638; 646]%Z.

(** [KeyFuns] is a signed integer type; a value is its code. *)
Definition KeyFuns := Z.

(** [len(_KeyFuns_index)-1]: the number of named values. *)
Definition KeyFunsLen : Z := Z.of_nat (length _KeyFuns_index) - 1.

(** [_KeyFuns_index[j]]. *)
Definition index_at (j : Z) : Z := nth (Z.to_nat j) _KeyFuns_index 0%Z.

(** [_KeyFuns_name[_KeyFuns_index[j]:_KeyFuns_index[j+1]]]. *)
Definition name_slice (j : Z) : string :=
  substring (Z.to_nat (index_at j))
            (Z.to_nat (index_at (j + 1) - index_at j)) _KeyFuns_name.

(** [strconv.FormatInt(int64(i), 10)]. *)
Definition FormatInt (i : Z) : string := NilZero.string_of_int (Z.to_int i).

Definition String (i : KeyFuns) : string :=
  if ((i <? 0) || (i >=? KeyFunsLen))%Z
  then "KeyFuns(" ++ FormatInt i ++ ")"
  else name_slice i.

(** The [for j := 0; j < len(_KeyFuns_index)-1; j++] loop of [FromString]:
    [n] iterations are left, [j] is the loop counter; the result is the
    first matching [j]. *)
Fixpoint FromString_loop (n : nat) (j : Z) (s : string) : option KeyFuns :=
  match n with
  | O => None
  | S n' => if String.eqb s (name_slice j) then Some j
            else FromString_loop n' (j + 1)%Z s
  end.

(** [FromString] on receiver [*i = i0]: the new value of the receiver and
    the returned error ([None] is [nil]). *)
Definition FromString (i0 : KeyFuns) (s : string) : KeyFuns * option string :=
  match FromString_loop (Z.to_nat KeyFunsLen) 0%Z s with
  | Some j => (j, None)
  | None => (i0, Some ("String " ++ s ++ " is not a valid option for type KeyFuns"))
  end.

(** The check that the loop of [FromString] finds code [j] again from
    [String j]; it is run on every named code below. *)
Definition roundtrip_at (j : nat) : bool :=
  match FromString_loop (Z.to_nat KeyFunsLen) 0%Z (String (Z.of_nat j)) with
  | Some k => (k =? Z.of_nat j)%Z
  | None => false
  end.

End KeyFunsString.

(** ** Geometry and pixel buffers

    [viewport2d.go] works on Go's [image.Point], [image.Rectangle] and
    [*image.RGBA] and composites with [draw.Draw(dst, r, src, sp, draw.Over)].
    Coordinates are Go [int]s; they are modelled as unbounded integers
    (window coordinates stay far from the 64-bit range). *)

Module image.

Record Point := mkPoint { X : Z; Y : Z }.

(** [image.ZP] *)
Definition ZP : Point := mkPoint 0 0.

Definition Point_Add (p q : Point) : Point := mkPoint (X p + X q) (Y p + Y q).
Definition Point_Sub (p q : Point) : Point := mkPoint (X p - X q) (Y p - Y q).
Definition Point_eqb (p q : Point) : bool := (X p =? X q) && (Y p =? Y q).

Record Rectangle := mkRectangle { Min : Point; Max : Point }.

(** [image.ZR] *)
Definition ZR : Rectangle := mkRectangle ZP ZP.

(** [image.Rect(x0, y0, x1, y1)]: the rectangle with its corners put in
    order. *)
Definition Rect (x0 y0 x1 y1 : Z) : Rectangle :=
  let '(x0, x1) := if x0 >? x1 then (x1, x0) else (x0, x1) in
  let '(y0, y1) := if y0 >? y1 then (y1, y0) else (y0, y1) in
  mkRectangle (mkPoint x0 y0) (mkPoint x1 y1).

Definition Dx (r : Rectangle) : Z := X (Max r) - X (Min r).
Definition Dy (r : Rectangle) : Z := Y (Max r) - Y (Min r).
Definition Size (r : Rectangle) : Point := mkPoint (Dx r) (Dy r).

Definition Rectangle_Add (r : Rectangle) (p : Point) : Rectangle :=
  mkRectangle (Point_Add (Min r) p) (Point_Add (Max r) p).

(** [r.Empty()] *)
Definition Empty (r : Rectangle) : bool :=
  (X (Min r) >=? X (Max r)) || (Y (Min r) >=? Y (Max r)).

(** [p.In(r)] *)
Definition In (p : Point) (r : Rectangle) : bool :=
  (X (Min r) <=? X p) && (X p <? X (Max r)) &&
  (Y (Min r) <=? Y p) && (Y p <? Y (Max r)).

(** [r.Intersect(s)]: the largest rectangle contained by both, [ZR] when
    they do not overlap. *)
Definition Intersect (r s : Rectangle) : Rectangle :=
  let x0 := if X (Min r) <? X (Min s) then X (Min s) else X (Min r) in
  let y0 := if Y (Min r) <? Y (Min s) then Y (Min s) else Y (Min r) in
  let x1 := if X (Max r) >? X (Max s) then X (Max s) else X (Max r) in
  let y1 := if Y (Max r) >? Y (Max s) then Y (Max s) else Y (Max r) in
  let r' := mkRectangle (mkPoint x0 y0) (mkPoint x1 y1) in
  if Empty r' then ZR else r'.

(** [color.RGBA]: alpha-premultiplied, 8 bits a channel. *)
Record Color := mkColor { R : Z; G : Z; B : Z; A : Z }.

(** [color.Transparent] as an RGBA pixel; also what a fresh buffer holds. *)
Definition Transparent : Color := mkColor 0 0 0 0.

(** [*image.RGBA]: the bounds and the pixel at each point ([Pix] with its
    stride, read as a map from points). *)
Record RGBA := mkRGBA { Bounds : Rectangle; Pix : Point -> Color }.

(** [image.NewRGBA(image.Rectangle{Max: sz})] *)
Definition NewRGBA (sz : Point) : RGBA :=
  mkRGBA (mkRectangle ZP sz) (fun _ => Transparent).

(** [img.RGBAAt(p)]: the zero colour outside the bounds. *)
Definition RGBAAt (img : RGBA) (p : Point) : Color :=
  if In p (Bounds img) then Pix img p else Transparent.

End image.

(** [image/draw]: [draw.Draw] with [draw.Over] from an RGBA source onto an
    RGBA destination. *)
Module draw.
Import image.

Definition uint32 (x : Z) : Z := x mod 2 ^ 32.
Definition uint8 (x : Z) : Z := x mod 2 ^ 8.

(** [const m = 1<<16 - 1] *)
Definition m : Z := 65535.

(** One channel of [drawCopyOver]:
    [uint8((uint32(d)*a/m + s) >> 8)] with [s] the source channel times
    [0x101]. *)
Definition over_channel (d s a : Z) : Z :=
  uint8 (Z.shiftr (uint32 (uint32 (d * a) / m + s)) 8).

(** The [Over] operator on one pixel: source [s] over destination [d]. *)
Definition over (s d : Color) : Color :=
  let sa := A s * 257 in
  let a := uint32 ((m - sa) * 257) in
  mkColor (over_channel (R d) (R s * 257) a)
          (over_channel (G d) (G s * 257) a)
          (over_channel (B d) (B s * 257) a)
          (over_channel (A d) (A s * 257) a).

(** [clip]: the destination rectangle cut to the destination's and the
    (translated) source's bounds, and the source point moved along. *)
Definition clip (dstB r srcB : Rectangle) (sp : Point) : Rectangle * Point :=
  let orig := Min r in
  let r1 := Intersect r dstB in
  let r2 := Intersect r1 (Rectangle_Add srcB (Point_Sub orig sp)) in
  let dx := X (Min r2) - X orig in
  let dy := Y (Min r2) - Y orig in
  (r2, mkPoint (X sp + dx) (Y sp + dy)).

(** [draw.Draw(dst, r, src, sp, draw.Over)]: [r.Min] in [dst] is aligned
    with [sp] in [src]; every pixel of the clipped rectangle becomes the
    source pixel over the destination pixel. *)
Definition Draw (dst : RGBA) (r : Rectangle) (src : RGBA) (sp : Point) : RGBA :=
  let '(r', sp') := clip (Bounds dst) r (Bounds src) sp in
  if Empty r' then dst
  else mkRGBA (Bounds dst)
         (fun q => if In q r'
                   then over (Pix src (Point_Add sp' (Point_Sub q (Min r')))) (Pix dst q)
                   else Pix dst q).

(** The source point [draw.Draw] reads for destination point [q] of
    the requested rectangle [r]. *)
Definition src_point (r : Rectangle) (sp q : Point) : Point :=
  Point_Add sp (Point_Sub q (Min r)).

(** A channel as [image.RGBA] stores it, a [uint8], and a pixel of four
    such channels. *)
Definition is_uint8 (x : Z) : bool := (0 <=? x) && (x <? 256).

Definition is_pixel (c : Color) : bool :=
  is_uint8 (R c) && is_uint8 (G c) && is_uint8 (B c) && is_uint8 (A c).

(** [draw.Draw(dst, r, &image.Uniform{c}, image.ZP, draw.Src)]: a uniform
    source has no bounds to clip to; every pixel of [r] that the
    destination has becomes [c]. *)
Definition DrawUniformSrc (dst : RGBA) (r : Rectangle) (c : Color) : RGBA :=
  let r' := Intersect r (Bounds dst) in
  if Empty r' then dst
  else mkRGBA (Bounds dst) (fun q => if In q r' then c else Pix dst q).

End draw.

(** ** Flags, geometry of nodes, render state *)

(** [github.com/goki/ki/bitflag] *)
Module bitflag.

(** [Has(bits, flag)]: bit number [flag] of [bits] is set. *)
Definition Has (bits flag : Z) : bool :=
  negb (Z.land bits (Z.shiftl 1 flag) =? 0).

(** [HasMask(bits, mask)]: some bit of [mask] is set in [bits]. *)
Definition HasMask (bits mask : Z) : bool :=
  negb (Z.land bits mask =? 0).

End bitflag.

(** The constants [viewport2d.go] takes from declarations outside it: the
    bit numbers of [ki.Flags] and [gi.NodeFlags], the code of
    [ki.NodeSignalUpdated] and the two update masks.  The development is
    generic in them. *)
Class Consts := mkConsts {
  Updating : Z;
  NodeDeleted : Z;
  NodeDestroyed : Z;
  NodeSignalUpdated : Z;
  ValUpdateFlagsMask : Z;
  StruUpdateFlagsMask : Z;
  Overlay : Z;
  NodeFlagsN : Z
}.

(** Values in the style of the ki and gi enumerations (bit numbers, and
    masks made of the node, child, field and property update bits); the
    theorems hold for any values, the concrete runs below use these. *)
Definition kiConsts : Consts :=
  {| Updating := 1;
     NodeDeleted := 6;
     NodeDestroyed := 7;
     NodeSignalUpdated := 1;
     ValUpdateFlagsMask := Z.lor (Z.shiftl 1 12) (Z.shiftl 1 13);
     StruUpdateFlagsMask :=
       Z.lor (Z.lor (Z.lor (Z.shiftl 1 3) (Z.shiftl 1 4)) (Z.shiftl 1 5))
         (Z.lor (Z.lor (Z.lor (Z.lor (Z.shiftl 1 8) (Z.shiftl 1 9)) (Z.shiftl 1 10))
                   (Z.shiftl 1 11))
            (Z.shiftl 1 6));
     Overlay := 24;
     NodeFlagsN := 26 |}.

(** Modelled from the spec: [Vec2D] is declared in geom2d.go, which is not
    among the sources.  It is the "allocated size and position" of a node,
    a pair of float32; the model takes rationals, which cover every finite
    float32. *)
Record Vec2D := mkVec2D { VX : Q; VY : Q }.

(** Go's conversion [int(x)] of a float: towards zero. *)
Definition Qtrunc (x : Q) : Z :=
  if Qle_bool 0 x then Qfloor x else Qceiling x.

(** Modelled from the spec: [Vec2D.IsZero] (geom2d.go) holds of the zero
    vector, the "zero allocated size": both components are zero. *)
Definition Vec2D_IsZero (a : Vec2D) : bool :=
  Qeq_bool (VX a) 0 && Qeq_bool (VY a) 0.

(** Modelled from the spec: [Vec2D.ToPoint] (geom2d.go) converts each
    component to an integer. *)
Definition Vec2D_ToPoint (a : Vec2D) : image.Point :=
  image.mkPoint (Qtrunc (VX a)) (Qtrunc (VY a)).

(** Modelled from the spec: [Vec2D.ToPointCeil] (geom2d.go) rounds each
    component up. *)
Definition Vec2D_ToPointCeil (a : Vec2D) : image.Point :=
  image.mkPoint (Qceiling (VX a)) (Qceiling (VY a)).

(** Modelled from the spec: [Vec2D.ToPointFloor] (geom2d.go) rounds each
    component down. *)
Definition Vec2D_ToPointFloor (a : Vec2D) : image.Point :=
  image.mkPoint (Qfloor (VX a)) (Qfloor (VY a)).

(** Modelled from the spec: [ViewBox2D] (geom2d.go) is the view box, a
    "position + size in the coordinate space of the parent viewport". *)
Record ViewBox2D := mkViewBox2D { ViewBox_Min : image.Point; ViewBox_Size : image.Point }.

(** Modelled from the spec: [ViewBox2D.Bounds] (geom2d.go) is the rectangle
    of the view box, from its position to position plus size. *)
Definition ViewBox2D_Bounds (vb : ViewBox2D) : image.Rectangle :=
  image.Rect (image.X (ViewBox_Min vb)) (image.Y (ViewBox_Min vb))
             (image.X (ViewBox_Min vb) + image.X (ViewBox_Size vb))
             (image.Y (ViewBox_Min vb) + image.Y (ViewBox_Size vb)).

(** The paint context of a viewport (paint.go, not among the sources). *)
Module paint.

(** Modelled from the spec: [RenderState] holds the clip of a pixel
    surface, the current bounds and the stack of the bounds they replaced
    ("scoped clipping (push/pop bounds)", "the clip stack is
    per-Pixel-Surface"), and the image it paints on. *)
Record RenderState := mkRenderState {
  Bounds : image.Rectangle;
  BoundsStack : list image.Rectangle;
  Image : option nat
}.

(** Modelled from the spec: [RenderState.PushBounds] establishes a clip
    region: it saves the current bounds on the stack (the top is the last
    element) and installs the new ones. *)
Definition PushBounds (rs : RenderState) (b : image.Rectangle) : RenderState :=
  mkRenderState b (BoundsStack rs ++ [Bounds rs]) (Image rs).

(** Modelled from the spec: [RenderState.PopBounds] removes the clip
    region: it restores the bounds saved last; an empty stack is left as
    it is. *)
Definition PopBounds (rs : RenderState) : RenderState :=
  match last (BoundsStack rs) with
  | Some b => mkRenderState b (removelast (BoundsStack rs)) (Image rs)
  | None => rs
  end.

(** Modelled from the spec: [RenderState.Init] attaches the pixel buffer
    the surface draws on. *)
Definition Init (rs : RenderState) (width height : Z) (img : option nat) : RenderState :=
  mkRenderState (Bounds rs) (BoundsStack rs) img.

End paint.

(** ** The viewport and its world *)

Module gi.
Import image.

(** A reference to a tree node as [vp.Par] holds it: another viewport of
    the store, some other [Node2D] (with what its [ChildrenBBox2D()]
    returns), or a node that is not a [Node2D]. *)
Inductive KiRef :=
| KiViewport (id : nat)
| KiNode2D (childrenBBox : Rectangle)
| KiOther.

(** [Node2DBase], the part of it the viewport code reads: identity, flags,
    the tree parent [Par], the parent viewport [Viewport], the layout
    allocation and the two bounding boxes. *)
Record Node2DBase := mkNode2DBase {
  This : nat;
  PathUnique : string;
  Flag : Z;
  Par : option KiRef;
  Viewport : option nat;
  AllocSize : Vec2D;
  AllocPos : Vec2D;
  VpBBox : Rectangle;
  WinBBox : Rectangle
}.

(** [Viewport2D].  [Pixels] and [OSImage] are references into the image
    store ([None] is [nil]); [ParentWindow] is what [vp.ParentWindow()]
    finds. *)
Record Viewport2D := mkViewport2D {
  Base : Node2DBase;
  Fill : bool;
  ViewBox : ViewBox2D;
  Render : paint.RenderState;
  Pixels : option nat;
  OSImage : option nat;
  Win : option nat;
  ParentWindow : option nat
}.

Definition with_Base (vp : Viewport2D) (n : Node2DBase) : Viewport2D :=
  mkViewport2D n (Fill vp) (ViewBox vp) (Render vp) (Pixels vp) (OSImage vp) (Win vp)
    (ParentWindow vp).

Definition with_VpBBox (n : Node2DBase) (r : Rectangle) : Node2DBase :=
  mkNode2DBase (This n) (PathUnique n) (Flag n) (Par n) (Viewport n) (AllocSize n)
    (AllocPos n) r (WinBBox n).

Definition with_WinBBox (n : Node2DBase) (r : Rectangle) : Node2DBase :=
  mkNode2DBase (This n) (PathUnique n) (Flag n) (Par n) (Viewport n) (AllocSize n)
    (AllocPos n) (VpBBox n) r.

Definition with_ViewBox_Min (vp : Viewport2D) (p : Point) : Viewport2D :=
  mkViewport2D (Base vp) (Fill vp) (mkViewBox2D p (ViewBox_Size (ViewBox vp))) (Render vp)
    (Pixels vp) (OSImage vp) (Win vp) (ParentWindow vp).

Definition with_Render (vp : Viewport2D) (rs : paint.RenderState) : Viewport2D :=
  mkViewport2D (Base vp) (Fill vp) (ViewBox vp) rs (Pixels vp) (OSImage vp) (Win vp)
    (ParentWindow vp).

Definition with_ViewBox_Size (vp : Viewport2D) (sz : Point) : Viewport2D :=
  mkViewport2D (Base vp) (Fill vp) (mkViewBox2D (ViewBox_Min (ViewBox vp)) sz) (Render vp)
    (Pixels vp) (OSImage vp) (Win vp) (ParentWindow vp).

Definition with_OSImage (vp : Viewport2D) (o : option nat) : Viewport2D :=
  mkViewport2D (Base vp) (Fill vp) (ViewBox vp) (Render vp) (Pixels vp) o (Win vp)
    (ParentWindow vp).

Definition with_Pixels (vp : Viewport2D) (p : option nat) : Viewport2D :=
  mkViewport2D (Base vp) (Fill vp) (ViewBox vp) (Render vp) p (OSImage vp) (Win vp)
    (ParentWindow vp).

Definition with_Win (vp : Viewport2D) (win : option nat) : Viewport2D :=
  mkViewport2D (Base vp) (Fill vp) (ViewBox vp) (Render vp) (Pixels vp) (OSImage vp) win
    (ParentWindow vp).

(** An [oswin.Image]: the pixels it owns and whether it was released. *)
Record OSImg := mkOSImg { RGBA_of : RGBA; released : bool }.

(** What the code does to its surroundings, in order: log and trace lines,
    calls on the window, and the render passes of [Node2DBase] that are
    defined outside viewport2d.go. *)
Inductive Event :=
| LogPrintf (msg : string)
| Printf (line : string)
| UpdateStart (win : nat)
| UpdateEnd (win : nat)
| UploadAllViewports (win : nat)
| UploadVp (win vp : nat) (pos : Point)
| UploadVpRegion (win vp : nat) (vpBBox winBBox : Rectangle)
| FullRender2DTree (node : nat)
| Render2DTree (node : nat)
| ReRender2DTree (node : nat)
| Layout2DTree (node : nat)
| Style2DTree (node : nat).

(** The state the viewport code runs in: the viewports and the images by
    reference, the allocator of [oswin.TheApp] ([newImageErr sz] is the
    error [NewImage(sz)] fails with, if it fails), the two trace switches
    and the events so far. *)
Record World := mkWorld {
  vps : gmap nat Viewport2D;
  images : gmap nat OSImg;
  nextImage : nat;
  newImageErr : Point -> option string;
  Update2DTrace : bool;
  Render2DTrace : bool;
  events : list Event
}.

Definition with_vps (w : World) (m : gmap nat Viewport2D) : World :=
  mkWorld m (images w) (nextImage w) (newImageErr w) (Update2DTrace w) (Render2DTrace w)
    (events w).

Definition with_images (w : World) (m : gmap nat OSImg) : World :=
  mkWorld (vps w) m (nextImage w) (newImageErr w) (Update2DTrace w) (Render2DTrace w)
    (events w).

Definition emit (w : World) (es : list Event) : World :=
  mkWorld (vps w) (images w) (nextImage w) (newImageErr w) (Update2DTrace w)
    (Render2DTrace w) (events w ++ es).

Definition set_vp (w : World) (id : nat) (vp : Viewport2D) : World :=
  with_vps w (<[id := vp]> (vps w)).

(** [img.Release()] *)
Definition Release (w : World) (o : nat) : World :=
  match images w !! o with
  | Some im => with_images w (<[o := mkOSImg (RGBA_of im) true]> (images w))
  | None => w
  end.

(** Modelled from the spec: [oswin.TheApp.NewImage(sz)] (the oswin drivers
    are not among the sources) creates a surface of the given size or fails
    ("allocation failure (surface cannot be created/resized)"); a new
    surface is a fresh image with bounds [(0,0)-sz]; on failure no image is
    returned. *)
Definition NewImage (w : World) (sz : Point) : World * (nat + string) :=
  match newImageErr w sz with
  | Some err => (w, inr err)
  | None =>
      (mkWorld (vps w) (<[nextImage w := mkOSImg (NewRGBA sz) false]> (images w))
         (S (nextImage w)) (newImageErr w) (Update2DTrace w) (Render2DTrace w) (events w),
       inl (nextImage w))
  end.

(** [p == nil] *)
Definition is_nil {A : Type} (p : option A) : bool :=
  match p with
  | None => true
  | Some _ => false
  end.

(** [vp.Pixels.Bounds()]; [None] when [Pixels] is nil. *)
Definition Pixels_Bounds (w : World) (vp : Viewport2D) : option Rectangle :=
  b ← Pixels vp; im ← images w !! b; Some (Bounds (RGBA_of im)).

Section WithConsts.
Context `{Consts}.

(** The flags that extend [NodeFlags] to hold viewport state. *)
Definition VpFlagPopup : Z := NodeFlagsN + 0.
Definition VpFlagMenu : Z := NodeFlagsN + 1.
Definition VpFlagPopupDestroyAll : Z := NodeFlagsN + 2.
Definition VpFlagSVG : Z := NodeFlagsN + 3.

Definition IsDeleted (n : Node2DBase) : bool := bitflag.Has (Flag n) NodeDeleted.
Definition IsDestroyed (n : Node2DBase) : bool := bitflag.Has (Flag n) NodeDestroyed.
Definition IsUpdatingAtomic (n : Node2DBase) : bool := bitflag.Has (Flag n) Updating.
Definition IsOverlay (vp : Viewport2D) : bool := bitflag.Has (Flag (Base vp)) Overlay.
Definition IsPopup (vp : Viewport2D) : bool := bitflag.Has (Flag (Base vp)) VpFlagPopup.
Definition IsMenu (vp : Viewport2D) : bool := bitflag.Has (Flag (Base vp)) VpFlagMenu.
Definition IsSVG (vp : Viewport2D) : bool := bitflag.Has (Flag (Base vp)) VpFlagSVG.

(** [Resize] after its two early returns: release the old image, allocate
    the new one, and on success install it. *)
Definition Resize_alloc (w : World) (id : nat) (vp : Viewport2D) (nwsz : Point) : World :=
  let w1 := match OSImage vp with Some o => Release w o | None => w end in
  match NewImage w1 nwsz with
  | (w2, inr err) =>
      emit (set_vp w2 id (with_OSImage vp None)) [LogPrintf err]
  | (w2, inl o) =>
      let vp1 := with_Pixels (with_OSImage vp (Some o)) (Some o) in
      let vp2 := with_Render vp1 (paint.Init (Render vp1) (X nwsz) (Y nwsz) (Some o)) in
      set_vp w2 id (with_ViewBox_Size vp2 nwsz)
  end.

(** [vp.Resize(nwsz)]; [None] is a panic (here: a dangling reference). *)
Definition Resize (w : World) (id : nat) (nwsz : Point) : option World :=
  vp ← vps w !! id;
  if (X nwsz =? 0) || (Y nwsz =? 0) then Some w
  else
    match Pixels vp with
    | Some b =>
        im ← images w !! b;
        if Point_eqb (Size (Bounds (RGBA_of im))) nwsz
        then Some (set_vp w id (with_ViewBox_Size vp nwsz))
        else Some (Resize_alloc w id vp nwsz)
    | None => Some (Resize_alloc w id vp nwsz)
    end.

(** [vp.BBox2D()]: the world after it and the rectangle returned; [None]
    when it panics on [vp.Pixels.Bounds()] with nil [Pixels]. *)
Definition BBox2D (w : World) (id : nat) : option (World * Rectangle) :=
  vp ← vps w !! id;
  w1 ← (if is_nil (Pixels vp) || negb (IsPopup vp)
        then
          if negb (Vec2D_IsZero (AllocSize (Base vp)))
          then Resize w id (Vec2D_ToPointCeil (AllocSize (Base vp)))
          else if is_nil (Pixels vp)
               then Resize w id (mkPoint 64 64)
               else Some w
        else Some w);
  vp1 ← vps w1 !! id;
  r ← Pixels_Bounds w1 vp1;
  Some (w1, r).

(** [vp.ComputeBBox2D(parBBox, delta)]; [SetWinBBox], defined outside
    viewport2d.go, is given by the window box it sets. *)
Definition ComputeBBox2D (SetWinBBox : World -> Viewport2D -> Rectangle)
    (w : World) (id : nat) : option World :=
  vp ← vps w !! id;
  b ← Pixels_Bounds w vp;
  let vp1 := with_Base vp (with_VpBBox (Base vp) b) in
  let vp2 := with_Base vp1 (with_WinBBox (Base vp1) (SetWinBBox w vp1)) in
  let vp3 := if IsPopup vp2 then vp2
             else with_ViewBox_Min vp2 (Vec2D_ToPointFloor (AllocPos (Base vp2))) in
  Some (set_vp w id
          (with_Base vp3
             (with_WinBBox (Base vp3)
                (Rectangle_Add (WinBBox (Base vp3)) (ViewBox_Min (ViewBox vp3)))))).

(** [vp.ChildrenBBox2D()] *)
Definition ChildrenBBox2D (vp : Viewport2D) : Rectangle := VpBBox (Base vp).

(** [KiToNode2D(k)] followed by [ChildrenBBox2D()] on the result; [None]
    when the node is not a [Node2D]. *)
Definition Par_ChildrenBBox2D (w : World) (k : KiRef) : option Rectangle :=
  match k with
  | KiViewport pid => p ← vps w !! pid; Some (ChildrenBBox2D p)
  | KiNode2D cbb => Some cbb
  | KiOther => None
  end.

(** [draw.Draw(parVp.Pixels, r, vp.Pixels, sp, draw.Over)] on the image
    store. *)
Definition draw_into (w : World) (par vp : Viewport2D) (r : Rectangle) (sp : Point)
  : option World :=
  db ← Pixels par; dim ← images w !! db;
  sb ← Pixels vp; sim ← images w !! sb;
  Some (with_images w
          (<[db := mkOSImg (draw.Draw (RGBA_of dim) r (RGBA_of sim) sp) (released dim)]>
             (images w))).

(** [vp.DrawIntoParent(parVp)] *)
Definition DrawIntoParent (w : World) (id : nat) (parVp : option nat) : option World :=
  vp ← vps w !! id;
  if IsOverlay vp then
    match parVp with
    | None => Some w
    | Some pid =>
        par ← vps w !! pid;
        r ← Pixels_Bounds w vp;
        let pos := Vec2D_ToPoint (AllocPos (Base vp)) in
        draw_into w par vp (Rectangle_Add r pos) ZP
    end
  else
    let r := ViewBox2D_Bounds (ViewBox vp) in
    rsp ← match Par (Base vp) with
          | Some k =>
              cbb ← Par_ChildrenBBox2D w k;
              let nr := Intersect r cbb in
              Some (nr, Point_Sub (Min nr) (Min r))
          | None => Some (r, ZP)
          end;
    pid ← parVp;
    par ← vps w !! pid;
    draw_into w par vp (fst rsp) (snd rsp).

(** [vp.SetCurWin()]: the window pointer follows the parent window when
    there is one. *)
Definition SetCurWin (w : World) (id : nat) : option World :=
  vp ← vps w !! id;
  match ParentWindow vp with
  | Some pwin => Some (set_vp w id (with_Win vp (Some pwin)))
  | None => Some w
  end.

(** [vp.UploadMainToWin()] *)
Definition UploadMainToWin (w : World) (id : nat) : option World :=
  vp ← vps w !! id;
  match Win vp with
  | None => Some w
  | Some win => Some (emit w [UploadAllViewports win])
  end.

(** [vp.UploadToWin()] *)
Definition UploadToWin (w : World) (id : nat) : option World :=
  vp ← vps w !! id;
  match Win vp with
  | None => Some w
  | Some win =>
      Some (emit w [UpdateStart win; UploadVp win id (Min (WinBBox (Base vp))); UpdateEnd win])
  end.

(** A trace line, printed when the switch is on (the formatted arguments
    are left out of the line). *)
Definition trace_line (on : bool) (line : string) (w : World) : World :=
  if on then emit w [Printf line] else w.

(** [vp.RenderViewport2D()]: upload to the window or draw into the parent
    viewport. *)
Definition RenderViewport2D (w : World) (id : nat) : option World :=
  vp ← vps w !! id;
  if IsPopup vp then
    w1 ← SetCurWin w id;
    UploadToWin (trace_line (Render2DTrace w1) "Render: Popup UploadToWin" w1) id
  else
    match Viewport (Base vp) with
    | Some pid =>
        DrawIntoParent (trace_line (Render2DTrace w) "Render: DrawIntoParent" w) id (Some pid)
    | None =>
        UploadMainToWin (trace_line (Render2DTrace w) "Render: UploadMainToWin" w) id
    end.

(** [rs.PushBounds(b)] on the render state of viewport [id]. *)
Definition push_on (w : World) (id : nat) (vp : Viewport2D) (b : Rectangle) : World :=
  set_vp w id (with_Render vp (paint.PushBounds (Render vp) b)).

(** [vp.PushBounds()]: the world after it and whether to proceed. *)
Definition PushBounds (w : World) (id : nat) : option (World * bool) :=
  vp ← vps w !! id;
  if IsOverlay vp then
    match Viewport (Base vp) with
    | Some pid =>
        par ← vps w !! pid;
        b ← Pixels_Bounds w par;
        Some (push_on w pid par b, true)
    | None => Some (w, true)
    end
  else if Empty (VpBBox (Base vp)) then Some (w, false)
  else
    invisible ← match Viewport (Base vp) with
                | Some pid =>
                    par ← vps w !! pid;
                    Some (Empty (Intersect (WinBBox (Base vp)) (WinBBox (Base par))))
                | None => Some false
                end;
    if invisible : bool then Some (w, false)
    else Some (trace_line (Render2DTrace w) "Render:" (push_on w id vp (VpBBox (Base vp))), true).

(** [vp.PopBounds()] *)
Definition PopBounds (w : World) (id : nat) : option World :=
  vp ← vps w !! id;
  Some (set_vp w id (with_Render vp (paint.PopBounds (Render vp)))).

Section Render.
(** [vp.FillViewport()] paints through [Paint.FillBox] and
    [vp.Render2DChildren()] renders the child nodes; both are defined
    outside viewport2d.go and are taken as they come. *)
Variable FillViewport : World -> nat -> option World.
Variable Render2DChildren : World -> nat -> option World.

(** [vp.Render2D()] *)
Definition Render2D (w : World) (id : nat) : option World :=
  '(w1, proceed) ← PushBounds w id;
  if proceed : bool then
    vp ← vps w1 !! id;
    w2 ← (if Fill vp then FillViewport w1 id else Some w1);
    w3 ← Render2DChildren w2 id;
    w4 ← RenderViewport2D w3 id;
    PopBounds w4 id
  else Some w1.

End Render.

(** ** Signal handling *)

(** A node as the classifier meets it through the [Node2D] interface: its
    [Node2DBase], what [AsViewport2D()] returns (a viewport of the store or
    nil), what [ReRender2D()] returns (the node to re-render, or nil, and
    the layout flag) and what [ParentReRenderAnchor()] finds. *)
Record Node2D := mkNode2D {
  AsNode2D : Node2DBase;
  AsViewport2D : option nat;
  ReRender2D : option Node2DBase * bool;
  ParentReRenderAnchor : option Node2DBase
}.

(** A [ki.Ki] value handed to a signal receiver. *)
Inductive Ki :=
| KiNil
| KiNotNode2D
| KiIsNode2D (n : Node2D).

(** The [data interface{}] of a signal. *)
Inductive Data :=
| DataInt64 (d : Z)
| DataOther.

(** [KiToNode2D(k)] *)
Definition KiToNode2D (k : Ki) : option Node2D :=
  match k with
  | KiIsNode2D n => Some n
  | _ => None
  end.

(** [(vp *Viewport2D) ReRender2D()]: a viewport re-renders itself, without
    layout. *)
Definition Viewport2D_ReRender2D (vp : Viewport2D) : option Node2DBase * bool :=
  (Some (Base vp), false).

(** The calls on the window that upload the rectangle of node [gn]. *)
Definition upload_events (id win : nat) (gn : Node2DBase) : list Event :=
  [UpdateStart win; UploadVpRegion win id (VpBBox gn) (WinBBox gn); UpdateEnd win].

(** The same calls when the viewport has a window, none otherwise. *)
Definition region_upload (id : nat) (vp : Viewport2D) (gn : Node2DBase) : list Event :=
  match Win vp with
  | Some win => upload_events id win gn
  | None => []
  end.

(** The upload that ends [ReRender2DNode] and [ReRender2DAnchor]. *)
Definition upload_region (w : World) (id : nat) (vp : Viewport2D) (gn : Node2DBase) : World :=
  match Win vp with
  | Some win => emit w (upload_events id win gn)
  | None => w
  end.

(** [vp.ReRender2DNode(gni)] *)
Definition ReRender2DNode (w : World) (id : nat) (gn : Node2DBase) : option World :=
  vp ← vps w !! id;
  Some (upload_region (emit w [Render2DTree (This gn)]) id vp gn).

(** [vp.ReRender2DAnchor(gni)] *)
Definition ReRender2DAnchor (w : World) (id : nat) (gn : Node2DBase) : option World :=
  vp ← vps w !! id;
  Some (upload_region (emit w [ReRender2DTree (This gn)]) id vp gn).

(** The receiver [Init2D] connects to the viewport's own [NodeSig]: [id]
    is the viewport that connected, [recvp] the receiver handed in; using
    a receiver that is no viewport panics. *)
Definition Init2D_receiver (w : World) (id : nat) (recvp : Ki) : option World :=
  rvpi ← KiToNode2D recvp;
  let rvp := AsViewport2D rvpi ≫= (fun r => vps w !! r) in
  vp ← vps w !! id;
  w1 ← (if Update2DTrace w
        then _ ← rvp; Some (emit w [Printf "Update: Viewport2D: full render due to signal"])
        else Some w);
  if negb (IsDeleted (Base vp)) && negb (IsDestroyed (Base vp))
  then rv ← rvp; Some (emit w1 [FullRender2DTree (This (Base rv))])
  else Some w1.

(** The [fullRend] flag of [SignalViewport2D]; [None] when [data.(int64)]
    panics. *)
Definition fullRend (sig : Z) (data : Data) : option bool :=
  if sig =? NodeSignalUpdated then
    match data with
    | DataInt64 dflags =>
        let vlupdt := bitflag.HasMask dflags ValUpdateFlagsMask in
        let strupdt := bitflag.HasMask dflags StruUpdateFlagsMask in
        if vlupdt && negb strupdt then Some false
        else if strupdt then Some true
        else Some false
    | DataOther => None
    end
  else Some true.

(** The error line logged for a node that signals while it is updating. *)
Definition updating_error (gi : Node2DBase) : string :=
  ("ERROR SignalViewport2D updating node " ++ PathUnique gi
     ++ " with Updating flag set" ++ String (ascii_of_nat 10) EmptyString)%string.

(** [SignalViewport2D(vpki, send, sig, data)] *)
Definition SignalViewport2D (w : World) (vpki send : Ki) (sig : Z) (data : Data)
  : option World :=
  match KiToNode2D vpki with
  | None => Some w
  | Some vpgi =>
  match AsViewport2D vpgi with
  | None => Some w
  | Some id =>
  match KiToNode2D send with
  | None => Some w
  | Some gii =>
    let gi := AsNode2D gii in
    if IsDeleted gi || IsDestroyed gi then Some w
    else if IsUpdatingAtomic gi then Some (emit w [LogPrintf (updating_error gi)])
    else
      vp ← vps w !! id;
      let w1 := trace_line (Update2DTrace w) "Update: Viewport2D: rendering due to signal" w in
      full ← fullRend sig data;
      if full : bool then
        Some (emit (trace_line (Update2DTrace w1)
                      "Update: Viewport2D: FullRender2DTree (structural changes)" w1)
                [FullRender2DTree (This (Base vp))])
      else
        match ReRender2D gii with
        | (Some rrn, layout) =>
            let w2 := trace_line (Update2DTrace w1) "Update: Viewport2D: ReRender2D" w1 in
            let w3 := if layout then emit w2 [Layout2DTree (This rrn)] else w2 in
            ReRender2DNode w3 id rrn
        | (None, _) =>
            match ParentReRenderAnchor gii with
            | Some anchor =>
                let w2 := trace_line (Update2DTrace w1)
                            "Update: Viewport2D: ReRender2D nil, found anchor" w1 in
                ReRender2DAnchor (emit w2 [Style2DTree (This gi)]) id anchor
            | None =>
                let w2 := trace_line (Update2DTrace w1)
                            "Update: Viewport2D: ReRender2D nil, styling" w1 in
                Some (emit w2 [Style2DTree (This gi); ReRender2DTree (This (Base vp))])
            end
        end
  end end end.

(** ** Creation, popups and overlays *)

(** The zero value of [Node2DBase], as the composite literal
    [&Viewport2D{ViewBox: ...}] leaves it: no place in a tree yet, no flags,
    zero geometry. *)
Definition Node2DBase_zero : Node2DBase :=
  mkNode2DBase 0 EmptyString 0 None None (mkVec2D 0%Q 0%Q) (mkVec2D 0%Q 0%Q) ZR ZR.

(** The zero value of [RenderState]. *)
Definition RenderState_zero : paint.RenderState := paint.mkRenderState ZR [] None.

(** [NewViewport2D(width, height)]: the world after it and the viewport
    returned ([None] is nil). *)
Definition NewViewport2D (w : World) (width height : Z) : World * option Viewport2D :=
  let sz := mkPoint width height in
  let vp := mkViewport2D Node2DBase_zero false (mkViewBox2D ZP sz) RenderState_zero
              None None None None in
  match NewImage w sz with
  | (w1, inr err) => (emit w1 [LogPrintf err], None)
  | (w1, inl o) =>
      let vp1 := with_Pixels (with_OSImage vp (Some o)) (Some o) in
      (w1, Some (with_Render vp1 (paint.Init (Render vp1) width height (Some o))))
  end.

Definition with_Par (n : Node2DBase) (p : option KiRef) : Node2DBase :=
  mkNode2DBase (This n) (PathUnique n) (Flag n) p (Viewport n) (AllocSize n)
    (AllocPos n) (VpBBox n) (WinBBox n).

Definition with_Flag (n : Node2DBase) (f : Z) : Node2DBase :=
  mkNode2DBase (This n) (PathUnique n) f (Par n) (Viewport n) (AllocSize n)
    (AllocPos n) (VpBBox n) (WinBBox n).

(** A child in [vp.Kids] as [DeletePopup] and [RenderOverlays] meet it:
    what [KiToNode2D] makes of it (its [Node2DBase], or nothing when it is
    not a [Node2D]) and what its [AsLayout2D()] returns. *)
Inductive Child :=
| ChildOther
| ChildNode2D (gi : Node2DBase) (AsLayout2D : option nat).

(** The calls of [DeletePopup] on the tree, defined in ki:
    [ly.DeleteChildren(destroy)] and [vp.Destroy()]. *)
Inductive TreeCall :=
| DeleteChildren (layout : nat) (destroy : bool)
| Destroy (node : nat).

(** [vp.DeletePopup()] on a viewport with children [Kids]: the world after
    it and the calls made on the tree, in order; [None] when the only child
    is not a [Node2D] and [cli.AsLayout2D()] is called on nil. *)
Definition DeletePopup (w : World) (id : nat) (Kids : list Child)
  : option (World * list TreeCall) :=
  vp ← vps w !! id;
  let vp1 := with_Base vp (with_Par (Base vp) None) in
  calls ← (if negb (bitflag.Has (Flag (Base vp1)) VpFlagPopupDestroyAll)
           then
             if (length Kids =? 1)%nat then
               match Kids with
               | ChildNode2D _ (Some ly) :: _ => Some [DeleteChildren ly false]
               | ChildNode2D _ None :: _ => Some []
               | _ => None
               end
             else Some []
           else Some []);
  Some (set_vp w id vp1, calls ++ [Destroy (This (Base vp1))]).

(** Modelled from the spec: [Node2DBase.SetAsOverlay] (node2d.go, not
    among the sources) raises the [isOverlay] flag, the bit that
    [IsOverlay] tests. *)
Definition SetAsOverlay (n : Node2DBase) : Node2DBase :=
  with_Flag n (Z.lor (Flag n) (Z.shiftl 1 Overlay)).

(** The head of [vp.RenderOverlays(wsz)]: mark the viewport as an overlay,
    resize it to the window and fill its buffer with transparent pixels;
    [None] when [Pixels] is still nil at the fill. *)
Definition RenderOverlays_clear (w : World) (id : nat) (wsz : Point) : option World :=
  vp ← vps w !! id;
  w1 ← Resize (set_vp w id (with_Base vp (SetAsOverlay (Base vp)))) id wsz;
  vp1 ← vps w1 !! id;
  b ← Pixels vp1;
  im ← images w1 !! b;
  Some (with_images w1
          (<[b := mkOSImg (draw.DrawUniformSrc (RGBA_of im) (Bounds (RGBA_of im))
                             Transparent)
                    (released im)]> (images w1))).

Section Overlays.
(** The [Init2D], [Style2D] and [Render2D] of the overlay nodes are
    methods of other node types; they are taken as they come, applied to
    the node as [KiToNode2D] gives it. *)
Variable KidInit2D : World -> Node2DBase -> option World.
Variable KidStyle2D : World -> Node2DBase -> option World.
Variable KidRender2D : World -> Node2DBase -> option World.

(** The body of the loop of [RenderOverlays] for one child. *)
Definition RenderOverlays_kid (w : World) (k : Child) : option World :=
  match k with
  | ChildOther => Some w
  | ChildNode2D gi _ =>
      if negb (bitflag.Has (Flag gi) Overlay) then
        let gi1 := SetAsOverlay gi in
        w1 ← KidInit2D w gi1;
        w2 ← KidStyle2D w1 gi1;
        KidRender2D w2 gi1
      else KidRender2D w gi
  end.

(** [for _, k := range vp.Kids] *)
Fixpoint RenderOverlays_kids (w : World) (Kids : list Child) : option World :=
  match Kids with
  | [] => Some w
  | k :: ks => w1 ← RenderOverlays_kid w k; RenderOverlays_kids w1 ks
  end.

(** [vp.RenderOverlays(wsz)] *)
Definition RenderOverlays (w : World) (id : nat) (wsz : Point) (Kids : list Child)
  : option World :=
  w1 ← RenderOverlays_clear w id wsz;
  RenderOverlays_kids w1 Kids.

End Overlays.

End WithConsts.

(** [vp.Pixels] is nil, or a buffer of another size than [nwsz]. *)
Definition other_size (w : World) (vp : Viewport2D) (nwsz : Point) : Prop :=
  match Pixels vp with
  | Some b => exists im, images w !! b = Some im /\
                         Point_eqb (Size (Bounds (RGBA_of im))) nwsz = false
  | None => True
  end.

End gi.

(** ** Observations on the event trace

    What the properties below say about the calls the code makes on its
    window and on the render passes. *)

Module Trace.
Import gi.

(** The uploads of a trace keep the window's protocol: every [UploadVp]
    and [UploadVpRegion] falls between an [UpdateStart] and the [UpdateEnd]
    on the same window, and no update is left open.  [open] is the window
    whose update is open. *)
Fixpoint bracketed_from (open : option nat) (es : list Event) : bool :=
  match es with
  | [] => is_nil open
  | UpdateStart win :: es' => is_nil open && bracketed_from (Some win) es'
  | UpdateEnd win :: es' =>
      match open with
      | Some o => (o =? win)%nat && bracketed_from None es'
      | None => false
      end
  | UploadVp win _ _ :: es' | UploadVpRegion win _ _ _ :: es' =>
      match open with
      | Some o => (o =? win)%nat && bracketed_from open es'
      | None => false
      end
  | _ :: es' => bracketed_from open es'
  end.




(** The trace lines of [fmt.Printf]. *)
Definition is_Printf (e : Event) : bool :=
  match e with
  | Printf _ => true
  | _ => false
  end.

(** What a run leaves behind apart from its trace lines: the viewports,
    the images and the other events. *)
Definition outcome (ow : option World)
  : option (gmap nat Viewport2D * gmap nat OSImg * list Event) :=
  w ← ow; Some (vps w, images w, List.filter (fun e => negb (is_Printf e)) (events w)).

Definition with_Update2DTrace (w : World) (on : bool) : World :=
  mkWorld (vps w) (images w) (nextImage w) (newImageErr w) on (Render2DTrace w) (events w).

End Trace.

(** ** The classifier as the specification words it

    The specification lists five actions chosen by first match: ignore
    when the destination viewport or the emitting node is deleted or
    destroyed or the node is mid-update; full-tree re-render when the kind
    is structure-updated or the signal is not a value-updated
    [NodeSignalUpdated]; node re-render without layout when the node can
    re-render itself; anchor re-render when an anchor is found; otherwise
    the restyle-and-re-render fallback.  These definitions follow those
    words; they are compared with [gi.SignalViewport2D] below. *)

Module Claimed.
Import image gi.


Section Claimed.
Context `{Consts}.



(** The condition of the Ignore action. *)
Definition ignored (vp : Viewport2D) (gii : Node2D) : bool :=
  IsDeleted (Base vp) || IsDestroyed (Base vp)
  || IsDeleted (AsNode2D gii) || IsDestroyed (AsNode2D gii)
  || IsUpdatingAtomic (AsNode2D gii).



End Claimed.
End Claimed.

(** ** Concrete worlds

    Small worlds on which the code is run below: a main viewport with a
    2x2 buffer, an overlay viewport and a nested viewport under it. *)

Module Examples.
Import image gi.

#[local] Existing Instance kiConsts.

Definition rect (x0 y0 x1 y1 : Z) : Rectangle :=
  mkRectangle (mkPoint x0 y0) (mkPoint x1 y1).

Definition white : Color := mkColor 255 255 255 255.
Definition red : Color := mkColor 255 0 0 255.

(** A buffer of the given size filled with one colour. *)
Definition solid (sz : Point) (c : Color) : RGBA :=
  mkRGBA (mkRectangle ZP sz) (fun _ => c).

Definition vec (x y : Z) : Vec2D := mkVec2D (inject_Z x) (inject_Z y).

Definition noRender : paint.RenderState := paint.mkRenderState ZR [] None.

(** The main viewport: store key 0, image 0 (2x2, white), laid out; its
    current clip is the rectangle (0,0)-(1,1) and its bounds stack is
    empty. *)
Definition mainVp : Viewport2D :=
  mkViewport2D
    (mkNode2DBase 0 "/main" 0 None None (vec 2 2) (vec 0 0) (rect 0 0 2 2) (rect 0 0 2 2))
    false (mkViewBox2D ZP (mkPoint 2 2))
    (paint.mkRenderState (rect 0 0 1 1) [] (Some 0%nat))
    (Some 0%nat) (Some 0%nat) None None.

(** An overlay viewport under it: store key 1, image 1 (2x2, red),
    allocated at (1,1); one rectangle is saved on its own bounds stack. *)
Definition overlayVp : Viewport2D :=
  mkViewport2D
    (mkNode2DBase 1 "/main/overlay" (Z.shiftl 1 Overlay) (Some (KiViewport 0))
       (Some 0%nat) (vec 2 2) (vec 1 1) (rect 0 0 2 2) (rect 1 1 3 3))
    false (mkViewBox2D (mkPoint 1 1) (mkPoint 2 2))
    (paint.mkRenderState (rect 0 0 2 2) [rect 0 0 4 4] (Some 1%nat))
    (Some 1%nat) (Some 1%nat) None None.

(** A nested (sub) viewport under the main one: store key 2, image 2 (2x2,
    red), view box at (1,1). *)
Definition nestedVp : Viewport2D :=
  mkViewport2D
    (mkNode2DBase 2 "/main/nested" 0 (Some (KiViewport 0))
       (Some 0%nat) (vec 2 2) (vec 1 1) (rect 0 0 2 2) (rect 1 1 3 3))
    false (mkViewBox2D (mkPoint 1 1) (mkPoint 2 2))
    (paint.mkRenderState (rect 0 0 2 2) [] (Some 2%nat))
    (Some 2%nat) (Some 2%nat) None None.

(** A viewport that has no buffer yet and was allocated a 10 by 0 box. *)
Definition flatVp : Viewport2D :=
  mkViewport2D
    (mkNode2DBase 3 "/flat" 0 None None (vec 10 0) (vec 0 0) ZR ZR)
    false (mkViewBox2D ZP ZP) noRender None None None None.

(** A viewport that has no buffer yet and no allocation at all. *)
Definition freshVp : Viewport2D :=
  mkViewport2D
    (mkNode2DBase 4 "/fresh" 0 None None (vec 0 0) (vec 0 0) ZR ZR)
    false (mkViewBox2D ZP ZP) noRender None None None None.

Definition world (fails : Point -> option string) : World :=
  mkWorld
    (<[0%nat := mainVp]> (<[1%nat := overlayVp]> (<[2%nat := nestedVp]>
       (<[3%nat := flatVp]> (<[4%nat := freshVp]> ∅)))))
    (<[0%nat := mkOSImg (solid (mkPoint 2 2) white) false]>
       (<[1%nat := mkOSImg (solid (mkPoint 2 2) red) false]>
          (<[2%nat := mkOSImg (solid (mkPoint 2 2) red) false]> ∅)))
    3 fails false false [].

(** The allocator never fails. *)
Definition world0 : World := world (fun _ => None).

(** The allocator always fails. *)
Definition worldNoMem : World := world (fun _ => Some "cannot allocate image"%string).

(** The pixel of image [o] at [(x, y)] in an outcome, read with
    [RGBAAt]. *)
Definition pixel_at (ow : option World) (o : nat) (x y : Z) : option Color :=
  w ← ow; im ← images w !! o; Some (RGBAAt (RGBA_of im) (mkPoint x y)).

(** The bounds stack of viewport [id] in an outcome. *)
Definition stack_of (ow : option World) (id : nat) : option (list Rectangle) :=
  w ← ow; vp ← vps w !! id; Some (paint.BoundsStack (Render vp)).

(** A viewport without fill and without children: [FillViewport] is not
    called and [Render2DChildren] has nothing to render. *)
Definition nothing (w : World) (id : nat) : option World := Some w.

(** The bounds of the render state of viewport [id] in an outcome. *)
Definition bounds_of (ow : option World) (id : nat) : option Rectangle :=
  w ← ow; vp ← vps w !! id; Some (paint.Bounds (Render vp)).

(** The main viewport as a node, and the same node marked deleted. *)
Definition mainNode : Node2D :=
  mkNode2D (Base mainVp) (Some 0%nat) (Viewport2D_ReRender2D mainVp) None.

Definition deletedMainVp : Viewport2D :=
  mkViewport2D
    (mkNode2DBase 0 "/main" (Z.shiftl 1 NodeDeleted) None None (vec 2 2) (vec 0 0)
       (rect 0 0 2 2) (rect 0 0 2 2))
    false (mkViewBox2D ZP (mkPoint 2 2))
    (paint.mkRenderState (rect 0 0 2 2) [] (Some 0%nat))
    (Some 0%nat) (Some 0%nat) None None.

Definition deletedMainNode : Node2D :=
  mkNode2D (Base deletedMainVp) (Some 0%nat) (Viewport2D_ReRender2D deletedMainVp) None.

Definition worldDeletedMain : World :=
  mkWorld (<[0%nat := deletedMainVp]> (vps world0)) (images world0) 3 (fun _ => None)
    false false [].

(** A slider under the main viewport, with the given flags, answer of
    [ReRender2D()] and re-render anchor. *)
Definition sliderBase (flag : Z) : Node2DBase :=
  mkNode2DBase 7 "/main/slider" flag (Some (KiViewport 0)) (Some 0%nat)
    (vec 1 1) (vec 0 0) (rect 0 0 1 1) (rect 0 0 1 1).

Definition slider (flag : Z) (self layout : bool) (anchor : option Node2DBase) : Node2D :=
  mkNode2D (sliderBase flag) None
    (if self then Some (sliderBase flag) else None, layout) anchor.

(** A frame around the slider that is a re-render anchor. *)
Definition frameBase : Node2DBase :=
  mkNode2DBase 6 "/main/frame" 0 (Some (KiViewport 0)) (Some 0%nat)
    (vec 2 2) (vec 0 0) (rect 0 0 2 2) (rect 0 0 2 2).

(** The events of an outcome. *)
Definition events_of (ow : option World) : option (list Event) :=
  w ← ow; Some (events w).

(** Whether the overlay pixel [p] of the source buffer [src] shows at its
    place [p + pos] of the destination after the draw: the destination
    pixel there is the source pixel over what the destination held. *)
Definition Color_eqb (c d : Color) : bool :=
  (R c =? R d) && (G c =? G d) && (B c =? B d) && (A c =? A d).

Definition overlay_pixel_painted (before : World) (after : option World)
    (src dst : nat) (pos p : Point) : bool :=
  match pixel_at after dst (X p + X pos) (Y p + Y pos),
        pixel_at (Some before) dst (X p + X pos) (Y p + Y pos),
        images before !! src with
  | Some now, Some was, Some sim => Color_eqb now (draw.over (Pix (RGBA_of sim) p) was)
  | _, _, _ => false
  end.

(** A viewport without a buffer that the layout allocated 2.5 by 5. *)
Definition slantVp : Viewport2D :=
  mkViewport2D
    (mkNode2DBase 3 "/slant" 0 None None (mkVec2D (5 # 2) (inject_Z 5)) (vec 0 0) ZR ZR)
    false (mkViewBox2D ZP ZP) noRender None None None None.

(** A popup menu: store key 5, image 3 (2x2, red), placed at (4,4), under
    window 1, which its own window pointer does not know yet. *)
Definition popupVp : Viewport2D :=
  mkViewport2D
    (mkNode2DBase 5 "/popup" (Z.lor (Z.shiftl 1 VpFlagPopup) (Z.shiftl 1 VpFlagMenu))
       None None (vec 9 9) (vec 0 0) (rect 0 0 2 2) (rect 4 4 6 6))
    false (mkViewBox2D (mkPoint 4 4) (mkPoint 2 2))
    (paint.mkRenderState (rect 0 0 2 2) [] (Some 3%nat))
    (Some 3%nat) (Some 3%nat) None (Some 1%nat).

Definition worldPopup : World :=
  mkWorld (<[5%nat := popupVp]> (vps world0))
    (<[3%nat := mkOSImg (solid (mkPoint 2 2) red) false]> (images world0))
    4 (fun _ => None) false false [].

(** The viewport that [NewViewport2D(width, height)] returns in
    [world0]. *)
Definition newVp (width height : Z) : Viewport2D :=
  mkViewport2D Node2DBase_zero false (mkViewBox2D ZP (mkPoint width height))
    (paint.mkRenderState ZR [] (Some 3%nat)) (Some 3%nat) (Some 3%nat) None None.

(** A [SetWinBBox] that finds no parent offsets: the window box is the
    viewport box. *)
Definition winBox (w : World) (vp : Viewport2D) : Rectangle := VpBBox (Base vp).

(** The nested viewport moved out of sight: its window box does not meet
    that of the main viewport. *)
Definition offscreenVp : Viewport2D :=
  mkViewport2D
    (mkNode2DBase 2 "/main/nested" 0 (Some (KiViewport 0))
       (Some 0%nat) (vec 2 2) (vec 8 8) (rect 0 0 2 2) (rect 8 8 10 10))
    true (mkViewBox2D (mkPoint 8 8) (mkPoint 2 2))
    (paint.mkRenderState (rect 0 0 2 2) [] (Some 2%nat))
    (Some 2%nat) (Some 2%nat) None None.

(** A fill or a children's pass that must not be called. *)
Definition panics (w : World) (id : nat) : option World := None.

(** The nested viewport without a tree parent. *)
Definition looseVp : Viewport2D :=
  mkViewport2D
    (mkNode2DBase 2 "/main/nested" 0 None
       (Some 0%nat) (vec 2 2) (vec 1 1) (rect 0 0 2 2) (rect 1 1 3 3))
    false (mkViewBox2D (mkPoint 1 1) (mkPoint 2 2))
    (paint.mkRenderState (rect 0 0 2 2) [] (Some 2%nat))
    (Some 2%nat) (Some 2%nat) None None.




(** Methods of overlay nodes that leave a mark in the log, and the same
    methods refusing every node that is not flagged as an overlay. *)
Definition marks (w : World) (gi : Node2DBase) : option World :=
  Some (emit w [LogPrintf (PathUnique gi)]).

Definition onlyOverlays (w : World) (gi : Node2DBase) : option World :=
  if bitflag.Has (Flag gi) Overlay then marks w gi else None.

(** Two children of an overlay viewport: the slider, not yet an overlay,
    and a child that is not a [Node2D]. *)
Definition twoKids : list Child := [ChildNode2D (sliderBase 0) None; ChildOther].

End Examples.

(** * Properties *)

(** ** Rectangles and [draw.Draw] *)

Module DrawFacts.
Import image draw.

Lemma In_true (q : Point) (r : Rectangle) :
  In q r = true <->
  X (Min r) <= X q < X (Max r) /\ Y (Min r) <= Y q < Y (Max r).
Proof.
  unfold In. rewrite !andb_true_iff, !Z.leb_le, !Z.ltb_lt. lia.
Qed.

Lemma Empty_true (r : Rectangle) :
  Empty r = true <-> X (Max r) <= X (Min r) \/ Y (Max r) <= Y (Min r).
Proof.
  unfold Empty. rewrite orb_true_iff, !Z.geb_le. reflexivity.
Qed.

Lemma Empty_false (r : Rectangle) :
  Empty r = false <-> X (Min r) < X (Max r) /\ Y (Min r) < Y (Max r).
Proof.
  unfold Empty. rewrite orb_false_iff, !Z.geb_leb, !Z.leb_gt. reflexivity.
Qed.

Lemma Point_eqb_refl (p : Point) : Point_eqb p p = true.
Proof. unfold Point_eqb. now rewrite !Z.eqb_refl. Qed.

Lemma Point_eqb_eq (p q : Point) : Point_eqb p q = true -> p = q.
Proof.
  destruct p, q. unfold Point_eqb. simpl. intros Hpq.
  apply andb_prop in Hpq as [Hx Hy].
  apply Z.eqb_eq in Hx, Hy. now subst.
Qed.

Lemma Empty_not_In (r : Rectangle) (q : Point) : Empty r = true -> In q r = false.
Proof.
  intros He. apply Empty_true in He.
  destruct (In q r) eqn:Hq; [|reflexivity].
  apply In_true in Hq. lia.
Qed.

Lemma In_ZR (q : Point) : In q ZR = false.
Proof. apply Empty_not_In. reflexivity. Qed.

(** A point is in the intersection exactly when it is in both rectangles,
    also when the intersection collapses to [ZR]. *)
Lemma In_Intersect (r s : Rectangle) (q : Point) :
  In q (Intersect r s) = In q r && In q s.
Proof.
  apply eq_iff_eq_true. rewrite andb_true_iff, !In_true.
  unfold Intersect.
  destruct r as [[rx0 ry0] [rx1 ry1]], s as [[sx0 sy0] [sx1 sy1]], q as [x y].
  cbn [Min Max X Y].
  rewrite !Z.gtb_ltb.
  destruct (Z.ltb_spec rx0 sx0), (Z.ltb_spec ry0 sy0),
           (Z.ltb_spec sx1 rx1), (Z.ltb_spec sy1 ry1);
    match goal with
    | |- context [Empty ?r'] => destruct (Empty r') eqn:He
    end;
    try (apply Empty_true in He); try (apply Empty_false in He);
    cbn [Min Max X Y ZR ZP] in *; lia.
Qed.

Lemma In_Rectangle_Add (r : Rectangle) (p q : Point) :
  In q (Rectangle_Add r p) = In (Point_Sub q p) r.
Proof.
  apply eq_iff_eq_true. rewrite !In_true.
  destruct r as [[x0 y0] [x1 y1]], p as [px py], q as [x y].
  cbn [Rectangle_Add Point_Add Point_Sub Min Max X Y]. lia.
Qed.

Lemma Draw_Bounds (dst : RGBA) (r : Rectangle) (src : RGBA) (sp : Point) :
  Bounds (Draw dst r src sp) = Bounds dst.
Proof. unfold Draw, clip. now destruct (Empty _). Qed.

(** Pixel by pixel: inside the requested rectangle, where the destination
    has the pixel and the source has its counterpart, the source goes over
    the destination; every other pixel is left as it was. *)
Lemma Draw_Pix (dst : RGBA) (r : Rectangle) (src : RGBA) (sp q : Point) :
  Pix (Draw dst r src sp) q =
  if In q r && In q (Bounds dst) && In (src_point r sp q) (Bounds src)
  then over (Pix src (src_point r sp q)) (Pix dst q)
  else Pix dst q.
Proof.
  unfold Draw, clip.
  set (r2 := Intersect (Intersect r (Bounds dst))
               (Rectangle_Add (Bounds src) (Point_Sub (Min r) sp))).
  assert (Hin : In q r2 =
                In q r && In q (Bounds dst) && In (src_point r sp q) (Bounds src)).
  { unfold r2. rewrite !In_Intersect, In_Rectangle_Add. do 2 f_equal.
    unfold src_point. destruct q, sp, r as [[x0 y0] ?]. unfold Point_Sub, Point_Add.
    simpl. f_equal; f_equal; lia. }
  destruct (Empty r2) eqn:He.
  - rewrite <- Hin, (Empty_not_In _ _ He). reflexivity.
  - simpl. rewrite <- Hin. destruct (In q r2) eqn:Hq; [|reflexivity].
    f_equal. f_equal. unfold src_point.
    destruct q, sp, r as [[x0 y0] ?], (Min r2). unfold Point_Sub, Point_Add.
    simpl. f_equal; lia.
Qed.

(** Nothing changes when the requested rectangle is empty. *)
Lemma Draw_Empty (dst : RGBA) (r : Rectangle) (src : RGBA) (sp q : Point) :
  Empty r = true -> Pix (Draw dst r src sp) q = Pix dst q.
Proof. intros He. rewrite Draw_Pix, (Empty_not_In _ _ He). reflexivity. Qed.

End DrawFacts.

(** ** [Resize] and [BBox2D] *)

Module ResizeFacts.
Import image gi DrawFacts.

Lemma lookup_set_vp (w : World) (id : nat) (vp : Viewport2D) :
  vps (set_vp w id vp) !! id = Some vp.
Proof. unfold set_vp. simpl. apply lookup_insert_eq. Qed.

Lemma lookup_set_vp_ne (w : World) (id j : nat) (vp : Viewport2D) :
  id <> j -> vps (set_vp w id vp) !! j = vps w !! j.
Proof. intros Hne. unfold set_vp. simpl. now apply lookup_insert_ne. Qed.

(** C7: for a viewport whose pixel buffer is non-nil, [Resize] to the
    buffer's current size returns normally and keeps the buffer: no image
    is released, allocated or changed ([images], [nextImage]), nothing is
    logged, and the viewport still points to the same buffer and OS image
    with the same render state. *)
Theorem Resize_same_size (w : World) (id b : nat) (vp : Viewport2D) (im : OSImg) :
  vps w !! id = Some vp ->
  Pixels vp = Some b ->
  images w !! b = Some im ->
  exists w' vp',
    Resize w id (Size (Bounds (RGBA_of im))) = Some w' /\
    images w' = images w /\
    nextImage w' = nextImage w /\
    events w' = events w /\
    vps w' !! id = Some vp' /\
    Pixels vp' = Some b /\
    OSImage vp' = OSImage vp /\
    Render vp' = Render vp.
Proof.
  intros Hvp Hpix Him. unfold Resize. rewrite Hvp. simpl.
  destruct ((Dx (Bounds (RGBA_of im)) =? 0) || (Dy (Bounds (RGBA_of im)) =? 0)).
  - exists w, vp. repeat split; assumption.
  - rewrite Hpix, Him. simpl. rewrite Point_eqb_refl.
    eexists _, _. split; [reflexivity|].
    rewrite lookup_set_vp. repeat split; assumption.
Qed.

Lemma Resize_same_size_witness :
  exists w' vp',
    Resize Examples.world0 0 (mkPoint 2 2) = Some w' /\
    images w' = images Examples.world0 /\
    nextImage w' = nextImage Examples.world0 /\
    events w' = events Examples.world0 /\
    vps w' !! 0%nat = Some vp' /\
    Pixels vp' = Some 0%nat /\
    OSImage vp' = OSImage Examples.mainVp /\
    Render vp' = Render Examples.mainVp.
Proof.
  apply (Resize_same_size Examples.world0 0 0 Examples.mainVp
           (mkOSImg (Examples.solid (mkPoint 2 2) Examples.white) false));
    reflexivity.
Defined.

(** C8: when the allocation of the new surface fails, [Resize] logs the
    error and leaves [Pixels] pointing to the previous buffer, but by then
    it has released the previous OS image and it overwrites [OSImage] with
    the (nil) result of the failed allocation: the buffer state is not
    what it was. *)
Theorem Resize_alloc_failure (w : World) (id o : nat) (vp : Viewport2D) (im : OSImg)
    (nwsz : Point) (err : string) :
  vps w !! id = Some vp ->
  Pixels vp = Some o ->
  OSImage vp = Some o ->
  images w !! o = Some im ->
  (X nwsz =? 0) || (Y nwsz =? 0) = false ->
  Point_eqb (Size (Bounds (RGBA_of im))) nwsz = false ->
  newImageErr w nwsz = Some err ->
  exists w' vp',
    Resize w id nwsz = Some w' /\
    images w' !! o = Some (mkOSImg (RGBA_of im) true) /\
    events w' = events w ++ [LogPrintf err] /\
    vps w' !! id = Some vp' /\
    OSImage vp' = None /\
    Pixels vp' = Some o.
Proof.
  intros Hvp Hpix Hos Him Hnz Hsz Herr.
  unfold Resize. rewrite Hvp. simpl. rewrite Hnz, Hpix, Him. simpl. rewrite Hsz.
  unfold Resize_alloc, NewImage, Release. rewrite Hos, Him. simpl. rewrite Herr.
  eexists _, _. split; [reflexivity|]. simpl.
  rewrite !lookup_insert_eq. repeat split. assumption.
Qed.

Lemma Resize_alloc_failure_witness :
  exists w' vp',
    Resize Examples.worldNoMem 0 (mkPoint 4 4) = Some w' /\
    images w' !! 0%nat = Some (mkOSImg (Examples.solid (mkPoint 2 2) Examples.white) true) /\
    events w' = events Examples.worldNoMem ++ [LogPrintf "cannot allocate image"] /\
    vps w' !! 0%nat = Some vp' /\
    OSImage vp' = None /\
    Pixels vp' = Some 0%nat.
Proof.
  apply (Resize_alloc_failure Examples.worldNoMem 0 0 Examples.mainVp
           (mkOSImg (Examples.solid (mkPoint 2 2) Examples.white) false));
    reflexivity.
Defined.

Section BBox.
Context `{Consts}.

Lemma Qceiling_zero (x : Q) : Qeq_bool x 0 = true -> Qceiling x = 0.
Proof.
  intros Hx. apply Qeq_bool_iff in Hx. now rewrite Hx.
Qed.

(** C9: a viewport without a buffer whose allocated size has exactly one
    zero dimension makes [BBox2D] panic: [Resize] returns at its
    zero-dimension guard, [Pixels] stays nil and [vp.Pixels.Bounds()]
    dereferences it ([None] is the panic). *)
Theorem BBox2D_one_zero_dimension (w : World) (id : nat) (vp : Viewport2D) :
  vps w !! id = Some vp ->
  Pixels vp = None ->
  Vec2D_IsZero (AllocSize (Base vp)) = false ->
  Qeq_bool (VX (AllocSize (Base vp))) 0 || Qeq_bool (VY (AllocSize (Base vp))) 0 = true ->
  BBox2D w id = None.
Proof.
  intros Hvp Hpix Hnz Hone.
  unfold BBox2D. rewrite Hvp. simpl. rewrite Hpix, Hnz. simpl.
  unfold Resize. rewrite Hvp. simpl.
  assert (Hz : (Qceiling (VX (AllocSize (Base vp))) =? 0)
               || (Qceiling (VY (AllocSize (Base vp))) =? 0) = true).
  { apply orb_true_iff in Hone as [Hx | Hy].
    - now rewrite (Qceiling_zero _ Hx).
    - rewrite (Qceiling_zero _ Hy). apply orb_true_r. }
  rewrite Hz. simpl. rewrite Hvp. simpl.
  unfold Pixels_Bounds. now rewrite Hpix.
Qed.

(** The part of the edge case that holds: without a buffer and with a
    zero allocated size, [BBox2D] allocates the 64x64 default, provided the
    allocation succeeds. *)
Lemma BBox2D_zero_alloc_default (w : World) (id : nat) (vp : Viewport2D) :
  vps w !! id = Some vp ->
  Pixels vp = None ->
  Vec2D_IsZero (AllocSize (Base vp)) = true ->
  newImageErr w (mkPoint 64 64) = None ->
  exists w' vp',
    BBox2D w id = Some (w', mkRectangle ZP (mkPoint 64 64)) /\
    vps w' !! id = Some vp' /\
    Pixels vp' = Some (nextImage w) /\
    images w' !! nextImage w = Some (mkOSImg (NewRGBA (mkPoint 64 64)) false).
Proof.
  intros Hvp Hpix Hz Hok.
  unfold BBox2D. rewrite Hvp. simpl. rewrite Hpix, Hz. simpl.
  unfold Resize. rewrite Hvp. simpl. rewrite Hpix. simpl.
  unfold Resize_alloc, NewImage.
  destruct (OSImage vp) as [o|]; unfold Release;
    [destruct (images w !! o)|]; simpl; rewrite Hok; simpl;
    rewrite !lookup_insert_eq; simpl;
    unfold Pixels_Bounds; simpl; rewrite !lookup_insert_eq; simpl;
    eexists _, _; (split; [reflexivity|]); simpl;
    rewrite !lookup_insert_eq; repeat split.
Qed.

(** And when that allocation fails too, [BBox2D] panics all the same. *)
Lemma BBox2D_zero_alloc_failure (w : World) (id : nat) (vp : Viewport2D) (err : string) :
  vps w !! id = Some vp ->
  Pixels vp = None ->
  OSImage vp = None ->
  Vec2D_IsZero (AllocSize (Base vp)) = true ->
  newImageErr w (mkPoint 64 64) = Some err ->
  BBox2D w id = None.
Proof.
  intros Hvp Hpix Hos Hz Herr.
  unfold BBox2D. rewrite Hvp. simpl. rewrite Hpix, Hz. simpl.
  unfold Resize. rewrite Hvp. simpl. rewrite Hpix. simpl.
  unfold Resize_alloc, NewImage. rewrite Hos, Herr. simpl.
  rewrite lookup_insert_eq. simpl. unfold Pixels_Bounds. simpl. now rewrite Hpix.
Qed.

End BBox.

Lemma BBox2D_one_zero_dimension_witness :
  BBox2D (H := kiConsts) Examples.world0 3 = None.
Proof.
  apply (BBox2D_one_zero_dimension (H := kiConsts) Examples.world0 3 Examples.flatVp);
    reflexivity.
Defined.

Example BBox2D_fresh_default :
  snd <$> BBox2D (H := kiConsts) Examples.world0 4 = Some (Examples.rect 0 0 64 64).
Proof. reflexivity. Qed.

End ResizeFacts.

(** ** Compositing into the parent viewport *)

Module ComposeFacts.
Import image draw gi DrawFacts.

Section Compose.
Context `{Consts}.

Lemma draw_into_spec (w : World) (par vp : Viewport2D) (r : Rectangle) (sp : Point)
    (sb db : nat) (sim dim : OSImg) :
  Pixels vp = Some sb -> images w !! sb = Some sim ->
  Pixels par = Some db -> images w !! db = Some dim ->
  draw_into w par vp r sp =
  Some (with_images w
          (<[db := mkOSImg (Draw (RGBA_of dim) r (RGBA_of sim) sp) (released dim)]>
             (images w))).
Proof.
  intros Hs Hsi Hd Hdi. unfold draw_into.
  rewrite Hd. simpl. rewrite Hdi. simpl. rewrite Hs. simpl. now rewrite Hsi.
Qed.

(** The child-clip rectangle of a viewport is the bounds of its pixel
    buffer: that is what [ComputeBBox2D] sets [VpBBox] to and
    [ChildrenBBox2D] returns. *)
Lemma ComputeBBox2D_ChildrenBBox2D (S : World -> Viewport2D -> Rectangle) (w : World)
    (id : nat) (vp : Viewport2D) (b : Rectangle) :
  vps w !! id = Some vp ->
  Pixels_Bounds w vp = Some b ->
  exists w' vp',
    ComputeBBox2D S w id = Some w' /\
    vps w' !! id = Some vp' /\
    ChildrenBBox2D vp' = b /\
    Pixels_Bounds w' vp' = Some b.
Proof.
  intros Hvp Hb. unfold ComputeBBox2D. rewrite Hvp. simpl. rewrite Hb. simpl.
  eexists _, _. split; [reflexivity|]. rewrite ResizeFacts.lookup_set_vp.
  split; [reflexivity|].
  unfold Pixels_Bounds in *. simpl.
  destruct (IsPopup _); simpl; split; try reflexivity; exact Hb.
Qed.

(** C4, as the code has it: an overlay viewport with a parent viewport
    draws its whole buffer, placed at the node's allocated position, over
    the parent's buffer; the parent's child-clip and window rectangles are
    not consulted.  Every overlay pixel whose place lies inside the parent's
    pixel buffer is composited there (source over destination); the parent
    has no pixel for the others, and all other parent pixels are left as
    they were. *)
Theorem DrawIntoParent_overlay (w : World) (id pid sb db : nat) (vp par : Viewport2D)
    (sim dim : OSImg) :
  vps w !! id = Some vp ->
  IsOverlay vp = true ->
  vps w !! pid = Some par ->
  Pixels vp = Some sb -> images w !! sb = Some sim ->
  Pixels par = Some db -> images w !! db = Some dim ->
  Min (Bounds (RGBA_of sim)) = ZP ->
  exists w' dim',
    DrawIntoParent w id (Some pid) = Some w' /\
    vps w' = vps w /\
    events w' = events w /\
    images w' !! db = Some dim' /\
    Bounds (RGBA_of dim') = Bounds (RGBA_of dim) /\
    forall q,
      Pix (RGBA_of dim') q =
      if In (Point_Sub q (Vec2D_ToPoint (AllocPos (Base vp)))) (Bounds (RGBA_of sim))
         && In q (Bounds (RGBA_of dim))
      then over (Pix (RGBA_of sim) (Point_Sub q (Vec2D_ToPoint (AllocPos (Base vp)))))
                (Pix (RGBA_of dim) q)
      else Pix (RGBA_of dim) q.
Proof.
  intros Hvp Hov Hpar Hs Hsi Hd Hdi Hmin.
  unfold DrawIntoParent. rewrite Hvp. simpl. rewrite Hov, Hpar. simpl.
  unfold Pixels_Bounds. rewrite Hs. simpl. rewrite Hsi. simpl.
  rewrite (draw_into_spec _ _ _ _ _ _ _ _ _ Hs Hsi Hd Hdi).
  eexists _, _. split; [reflexivity|]. simpl.
  rewrite lookup_insert_eq. repeat split.
  - simpl. apply Draw_Bounds.
  - intros q. simpl. rewrite Draw_Pix, In_Rectangle_Add.
    set (pos := Vec2D_ToPoint (AllocPos (Base vp))).
    assert (Hsp : src_point (Rectangle_Add (Bounds (RGBA_of sim)) pos) ZP q
                  = Point_Sub q pos).
    { unfold src_point, Rectangle_Add. simpl. rewrite Hmin.
      destruct q, pos. unfold Point_Add, Point_Sub. simpl. f_equal; lia. }
    rewrite Hsp.
    destruct (In (Point_Sub q pos) (Bounds (RGBA_of sim)));
      destruct (In q (Bounds (RGBA_of dim))); reflexivity.
Qed.

(** C5: a nested (non-overlay) viewport draws into its parent exactly the
    intersection of its view-box rectangle with the children bounding box
    of its parent node, with the source point moved by what was cut off at
    the top-left: that rectangle and that source point are what is handed
    to the draw.  Pixel by pixel, destination [q] receives source pixel
    [q - r.Min] within that intersection (where both buffers have the
    pixel) and nothing outside it changes; an empty intersection changes
    no pixel of the parent's buffer. *)
Theorem DrawIntoParent_nested (w : World) (id pid sb db : nat) (vp par : Viewport2D)
    (k : KiRef) (cbb : Rectangle) (sim dim : OSImg) :
  vps w !! id = Some vp ->
  IsOverlay vp = false ->
  Par (Base vp) = Some k ->
  Par_ChildrenBBox2D w k = Some cbb ->
  vps w !! pid = Some par ->
  Pixels vp = Some sb -> images w !! sb = Some sim ->
  Pixels par = Some db -> images w !! db = Some dim ->
  exists w' dim',
    DrawIntoParent w id (Some pid) = Some w' /\
    vps w' = vps w /\
    images w' =
      <[db := mkOSImg
                (Draw (RGBA_of dim)
                   (Intersect (ViewBox2D_Bounds (ViewBox vp)) cbb)
                   (RGBA_of sim)
                   (Point_Sub (Min (Intersect (ViewBox2D_Bounds (ViewBox vp)) cbb))
                      (Min (ViewBox2D_Bounds (ViewBox vp)))))
                (released dim)]> (images w) /\
    images w' !! db = Some dim' /\
    (forall q,
       Pix (RGBA_of dim') q =
       if In q (ViewBox2D_Bounds (ViewBox vp)) && In q cbb
          && In q (Bounds (RGBA_of dim))
          && In (Point_Sub q (Min (ViewBox2D_Bounds (ViewBox vp)))) (Bounds (RGBA_of sim))
       then over (Pix (RGBA_of sim) (Point_Sub q (Min (ViewBox2D_Bounds (ViewBox vp)))))
                 (Pix (RGBA_of dim) q)
       else Pix (RGBA_of dim) q) /\
    (Empty (Intersect (ViewBox2D_Bounds (ViewBox vp)) cbb) = true ->
     forall q, Pix (RGBA_of dim') q = Pix (RGBA_of dim) q).
Proof.
  intros Hvp Hov Hk Hcbb Hpar Hs Hsi Hd Hdi.
  unfold DrawIntoParent. rewrite Hvp. simpl. rewrite Hov, Hk, Hcbb. simpl.
  rewrite Hpar. simpl.
  rewrite (draw_into_spec _ _ _ _ _ _ _ _ _ Hs Hsi Hd Hdi).
  eexists _, _. split; [reflexivity|]. simpl.
  rewrite lookup_insert_eq. repeat split.
  - intros q. simpl. rewrite Draw_Pix, In_Intersect.
    set (r := ViewBox2D_Bounds (ViewBox vp)).
    assert (Hsp : src_point (Intersect r cbb) (Point_Sub (Min (Intersect r cbb)) (Min r)) q
                  = Point_Sub q (Min r)).
    { unfold src_point. destruct q, (Min (Intersect r cbb)), (Min r).
      unfold Point_Add, Point_Sub. simpl. f_equal; lia. }
    rewrite Hsp. reflexivity.
  - intros He q. simpl. now apply Draw_Empty.
Qed.

End Compose.

Lemma DrawIntoParent_overlay_witness :
  exists w' dim',
    DrawIntoParent (H := kiConsts) Examples.world0 1 (Some 0%nat) = Some w' /\
    vps w' = vps Examples.world0 /\
    events w' = events Examples.world0 /\
    images w' !! 0%nat = Some dim' /\
    Bounds (RGBA_of dim') = Examples.rect 0 0 2 2 /\
    forall q,
      Pix (RGBA_of dim') q =
      if In (Point_Sub q (mkPoint 1 1)) (Examples.rect 0 0 2 2)
         && In q (Examples.rect 0 0 2 2)
      then over Examples.red Examples.white
      else Examples.white.
Proof.
  apply (DrawIntoParent_overlay (H := kiConsts) Examples.world0 1 0 1 0
           Examples.overlayVp Examples.mainVp
           (mkOSImg (Examples.solid (mkPoint 2 2) Examples.red) false)
           (mkOSImg (Examples.solid (mkPoint 2 2) Examples.white) false));
    reflexivity.
Defined.

(** C4 as stated fails where the overlay reaches past the parent's buffer,
    which is also the parent's child-clip rectangle [VpBBox]: the 2x2
    overlay allocated at (1,1) over the 2x2 parent lies partly outside it;
    its pixel (0,0) is painted at (1,1), but its pixel (1,1), which belongs
    at (2,2), is painted nowhere. *)
Lemma DrawIntoParent_overlay_not_in_full :
  VpBBox (Base Examples.mainVp) = Examples.rect 0 0 2 2 /\
  Rectangle_Add (Examples.rect 0 0 2 2) (Vec2D_ToPoint (AllocPos (Base Examples.overlayVp)))
    = Examples.rect 1 1 3 3 /\
  Examples.pixel_at (DrawIntoParent (H := kiConsts) Examples.world0 1 (Some 0%nat)) 0 1 1
    = Some Examples.red /\
  Examples.pixel_at (DrawIntoParent (H := kiConsts) Examples.world0 1 (Some 0%nat)) 0 2 2
    = Some Transparent /\
  In (mkPoint 1 1) (Examples.rect 0 0 2 2) = true /\
  Examples.overlay_pixel_painted Examples.world0
    (DrawIntoParent (H := kiConsts) Examples.world0 1 (Some 0%nat)) 1 0
    (mkPoint 1 1) (mkPoint 1 1) = false.
Proof. vm_compute. repeat split. Qed.

Lemma DrawIntoParent_nested_witness :
  exists w' dim',
    DrawIntoParent (H := kiConsts) Examples.world0 2 (Some 0%nat) = Some w' /\
    vps w' = vps Examples.world0 /\
    images w' =
      <[0%nat := mkOSImg
                (Draw (Examples.solid (mkPoint 2 2) Examples.white)
                   (Intersect (Examples.rect 1 1 3 3) (Examples.rect 0 0 2 2))
                   (Examples.solid (mkPoint 2 2) Examples.red)
                   (Point_Sub (Min (Intersect (Examples.rect 1 1 3 3) (Examples.rect 0 0 2 2)))
                      (mkPoint 1 1)))
                false]> (images Examples.world0) /\
    images w' !! 0%nat = Some dim' /\
    (forall q,
       Pix (RGBA_of dim') q =
       if In q (Examples.rect 1 1 3 3) && In q (Examples.rect 0 0 2 2)
          && In q (Examples.rect 0 0 2 2)
          && In (Point_Sub q (mkPoint 1 1)) (Examples.rect 0 0 2 2)
       then over Examples.red Examples.white
       else Examples.white) /\
    (Empty (Intersect (Examples.rect 1 1 3 3) (Examples.rect 0 0 2 2)) = true ->
     forall q, Pix (RGBA_of dim') q = Examples.white).
Proof.
  apply (DrawIntoParent_nested (H := kiConsts) Examples.world0 2 0 2 0
           Examples.nestedVp Examples.mainVp (KiViewport 0) (Examples.rect 0 0 2 2)
           (mkOSImg (Examples.solid (mkPoint 2 2) Examples.red) false)
           (mkOSImg (Examples.solid (mkPoint 2 2) Examples.white) false));
    reflexivity.
Defined.

Example DrawIntoParent_nested_pixels :
  Examples.pixel_at (DrawIntoParent (H := kiConsts) Examples.world0 2 (Some 0%nat)) 0 1 1
    = Some Examples.red /\
  Examples.pixel_at (DrawIntoParent (H := kiConsts) Examples.world0 2 (Some 0%nat)) 0 0 0
    = Some Examples.white.
Proof. vm_compute. split; reflexivity. Qed.

End ComposeFacts.

(** ** The bounds stack around [Render2D] *)

Module RenderFacts.
Import image gi DrawFacts ResizeFacts.

Lemma PopBounds_PushBounds (rs : paint.RenderState) (b : Rectangle) :
  paint.PopBounds (paint.PushBounds rs b) = rs.
Proof.
  unfold paint.PopBounds, paint.PushBounds. simpl.
  rewrite last_snoc, removelast_last. now destruct rs.
Qed.

Section Render.
Context `{Consts}.
Variable FillViewport : World -> nat -> option World.
Variable Render2DChildren : World -> nat -> option World.

(** An overlay viewport pushes on the render state of its parent
    viewport, with the parent's full bounds, and proceeds. *)
Lemma PushBounds_overlay (w : World) (id pid : nat) (vp par : Viewport2D) (b : Rectangle) :
  vps w !! id = Some vp ->
  IsOverlay vp = true ->
  Viewport (Base vp) = Some pid ->
  vps w !! pid = Some par ->
  Pixels_Bounds w par = Some b ->
  PushBounds w id =
  Some (set_vp w pid (with_Render par (paint.PushBounds (Render par) b)), true).
Proof.
  intros Hvp Hov Hv Hpar Hb. unfold PushBounds.
  rewrite Hvp. simpl. rewrite Hov, Hv, Hpar. simpl. now rewrite Hb.
Qed.

(** [PopBounds] pops the viewport's own render state, overlay or not. *)
Lemma PopBounds_own (w : World) (id : nat) (vp : Viewport2D) :
  vps w !! id = Some vp ->
  PopBounds w id = Some (set_vp w id (with_Render vp (paint.PopBounds (Render vp)))).
Proof. intros Hvp. unfold PopBounds. now rewrite Hvp. Qed.

(** The early returns of a non-overlay viewport: with an empty [VpBBox]
    nothing is pushed and the render pass leaves the world as it is. *)
Lemma Render2D_empty_VpBBox (w : World) (id : nat) (vp : Viewport2D) :
  vps w !! id = Some vp ->
  IsOverlay vp = false ->
  Empty (VpBBox (Base vp)) = true ->
  Render2D FillViewport Render2DChildren w id = Some w.
Proof.
  intros Hvp Hov He. unfold Render2D, PushBounds.
  rewrite Hvp. simpl. now rewrite Hov, He.
Qed.

(** Likewise when the window boxes of the viewport and of its parent
    viewport do not meet. *)
Lemma Render2D_empty_WinBBox (w : World) (id pid : nat) (vp par : Viewport2D) :
  vps w !! id = Some vp ->
  IsOverlay vp = false ->
  Viewport (Base vp) = Some pid ->
  vps w !! pid = Some par ->
  Empty (Intersect (WinBBox (Base vp)) (WinBBox (Base par))) = true ->
  Render2D FillViewport Render2DChildren w id = Some w.
Proof.
  intros Hvp Hov Hv Hpar He. unfold Render2D, PushBounds.
  rewrite Hvp. simpl. rewrite Hov. destruct (Empty (VpBBox (Base vp))); [reflexivity|].
  rewrite Hv. simpl. rewrite Hpar. simpl. now rewrite He.
Qed.

Lemma vps_trace_line (on : bool) (line : string) (w : World) :
  vps (trace_line on line w) = vps w.
Proof. now destruct on. Qed.

Lemma DrawIntoParent_vps (w w' : World) (id : nat) (parVp : option nat) :
  DrawIntoParent w id parVp = Some w' -> vps w' = vps w.
Proof.
  unfold DrawIntoParent, draw_into. intros Hd.
  repeat (simplify_option_eq; try case_match); reflexivity.
Qed.

(** [RenderViewport2D] touches no viewport but its own. *)
Lemma RenderViewport2D_others (w w' : World) (id j : nat) :
  RenderViewport2D w id = Some w' -> j <> id -> vps w' !! j = vps w !! j.
Proof.
  unfold RenderViewport2D, SetCurWin, UploadToWin, UploadMainToWin. intros Hr Hne.
  destruct (vps w !! id) as [vp|] eqn:Hvp; [|discriminate]. simpl in Hr.
  assert (Hfin : forall (w0 : World) (ow : option World),
             ow = Some w' ->
             (ow = Some w0 \/ exists es, ow = Some (emit w0 es)) ->
             vps w' = vps w0).
  { intros w0 ow Hw' [Ho | [es Ho]]; rewrite Ho in Hw'; now inversion Hw'. }
  destruct (IsPopup vp).
  - destruct (ParentWindow vp) as [pwin|]; simpl in Hr.
    + rewrite vps_trace_line, lookup_set_vp in Hr. simpl in Hr.
      rewrite (Hfin _ _ Hr (or_intror (ex_intro _ _ eq_refl))), vps_trace_line.
      now apply lookup_insert_ne.
    + rewrite vps_trace_line, Hvp in Hr. simpl in Hr.
      rewrite (Hfin (trace_line (Render2DTrace w) "Render: Popup UploadToWin" w) _ Hr),
        vps_trace_line; [reflexivity|].
      destruct (Win vp); [right; eexists|left]; reflexivity.
  - destruct (Viewport (Base vp)).
    + apply DrawIntoParent_vps in Hr. now rewrite Hr, vps_trace_line.
    + rewrite vps_trace_line, Hvp in Hr. simpl in Hr.
      rewrite (Hfin (trace_line (Render2DTrace w) "Render: UploadMainToWin" w) _ Hr),
        vps_trace_line; [reflexivity|].
      destruct (Win vp); [right; eexists|left]; reflexivity.
Qed.

(** Every completed render pass of an overlay viewport leaves the render
    state of its parent viewport one push deeper than on entry, whenever
    the fill and the children's passes leave that render state as they
    found it. *)
Lemma Render2D_overlay_parent_stack (w w' : World) (id pid : nat) (vp par : Viewport2D)
    (b : Rectangle) :
  vps w !! id = Some vp ->
  IsOverlay vp = true ->
  Viewport (Base vp) = Some pid ->
  pid <> id ->
  vps w !! pid = Some par ->
  Pixels_Bounds w par = Some b ->
  (forall w1 w2, FillViewport w1 id = Some w2 -> vps w2 !! pid = vps w1 !! pid) ->
  (forall w1 w2, Render2DChildren w1 id = Some w2 -> vps w2 !! pid = vps w1 !! pid) ->
  Render2D FillViewport Render2DChildren w id = Some w' ->
  exists par',
    vps w' !! pid = Some par' /\
    Render par' = paint.PushBounds (Render par) b.
Proof.
  intros Hvp Hov Hv Hne Hpar Hb HF HK Hr.
  unfold Render2D in Hr.
  rewrite (PushBounds_overlay _ _ _ _ _ _ Hvp Hov Hv Hpar Hb) in Hr. simpl in Hr.
  set (w1 := set_vp w pid _) in Hr.
  assert (H1 : vps w1 !! pid
               = Some (with_Render par (paint.PushBounds (Render par) b))).
  { apply lookup_set_vp. }
  rewrite lookup_insert_ne, Hvp in Hr by exact Hne. simpl in Hr.
  assert (H2 : exists w2, (if Fill vp then FillViewport w1 id else Some w1) = Some w2 /\
                          vps w2 !! pid = vps w1 !! pid).
  { destruct (Fill vp).
    - destruct (FillViewport w1 id) as [w2|] eqn:Hf; [|discriminate].
      exists w2. split; [reflexivity|]. now apply HF.
    - now exists w1. }
  destruct H2 as (w2 & Hw2 & Hk2). rewrite Hw2 in Hr. simpl in Hr.
  destruct (Render2DChildren w2 id) as [w3|] eqn:Hc; [|discriminate]. simpl in Hr.
  destruct (RenderViewport2D w3 id) as [w4|] eqn:Hrv; [|discriminate]. simpl in Hr.
  unfold PopBounds in Hr.
  destruct (vps w4 !! id) as [vp4|]; [|discriminate]. simpl in Hr.
  inversion Hr; subst w'.
  exists (with_Render par (paint.PushBounds (Render par) b)).
  split; [|reflexivity].
  rewrite (lookup_set_vp_ne _ _ _ _ (not_eq_sym Hne)).
  rewrite (RenderViewport2D_others _ _ _ _ Hrv Hne).
  rewrite (HK _ _ Hc), Hk2. exact H1.
Qed.

End Render.

(** A nested viewport's pass is balanced on the concrete world: its own
    stack and the parent's are as on entry. *)
Example Render2D_nested_balanced :
  Examples.stack_of (Some Examples.world0) 2 = Some [] /\
  Examples.stack_of
    (Render2D (H := kiConsts) Examples.nothing Examples.nothing Examples.world0 2) 2
    = Some [] /\
  Examples.stack_of
    (Render2D (H := kiConsts) Examples.nothing Examples.nothing Examples.world0 2) 0
    = Some [].
Proof. vm_compute. repeat split. Qed.

(** C6: the render pass of an overlay viewport does not leave the bounds
    stacks at their entry depth.  On the concrete world the parent's stack
    is empty on entry; after the pass it holds the clip (0,0)-(1,1) that
    was in force, saved by the push and never restored, and the parent's
    current bounds are its full buffer bounds.  The overlay's own stack, on
    which nothing was pushed, has lost the rectangle it held on entry: the
    pop is made on another stack than the push. *)
Theorem Render2D_overlay_stacks :
  Examples.stack_of (Some Examples.world0) 0 = Some [] /\
  Examples.bounds_of (Some Examples.world0) 0 = Some (Examples.rect 0 0 1 1) /\
  Examples.stack_of
    (Render2D (H := kiConsts) Examples.nothing Examples.nothing Examples.world0 1) 0
    = Some [Examples.rect 0 0 1 1] /\
  Examples.bounds_of
    (Render2D (H := kiConsts) Examples.nothing Examples.nothing Examples.world0 1) 0
    = Some (Examples.rect 0 0 2 2) /\
  Examples.stack_of (Some Examples.world0) 1 = Some [Examples.rect 0 0 4 4] /\
  Examples.stack_of
    (Render2D (H := kiConsts) Examples.nothing Examples.nothing Examples.world0 1) 1
    = Some [] /\
  Examples.bounds_of
    (Render2D (H := kiConsts) Examples.nothing Examples.nothing Examples.world0 1) 1
    = Some (Examples.rect 0 0 4 4).
Proof. vm_compute. repeat split. Qed.

End RenderFacts.

(** ** The signal classifier *)

Module SignalFacts.
Import image gi.

Lemma emit_emit (w : World) (a b : list Event) : emit (emit w a) b = emit w (a ++ b).
Proof. unfold emit. simpl. now rewrite app_assoc. Qed.

Section Signal.
Context `{Consts}.

(** A deleted or destroyed node triggers nothing at all, whatever the
    receiver, the signal and its data, and whether tracing is on or not. *)
Lemma SignalViewport2D_deleted_or_destroyed (w : World) (vpki : Ki) (gii : Node2D)
    (sig : Z) (data : Data) :
  IsDeleted (AsNode2D gii) || IsDestroyed (AsNode2D gii) = true ->
  SignalViewport2D w vpki (KiIsNode2D gii) sig data = Some w.
Proof.
  intros Hd. unfold SignalViewport2D.
  destruct (KiToNode2D vpki) as [vpgi|]; [|reflexivity].
  destruct (AsViewport2D vpgi); [|reflexivity].
  simpl. now rewrite Hd.
Qed.

(** C3, as the code has it: a signal delivered to a viewport from a node
    that is deleted, destroyed or mid-update starts no render, layout,
    style or upload and changes no viewport and no image.  For a deleted or
    destroyed node the world is left exactly as it was; for a live node
    that is mid-update the only effect is one ERROR line in the log.  The
    flags consulted are the emitting node's. *)
Theorem SignalViewport2D_ignored (w : World) (vpn gii : Node2D) (id : nat)
    (sig : Z) (data : Data) :
  AsViewport2D vpn = Some id ->
  IsDeleted (AsNode2D gii) || IsDestroyed (AsNode2D gii)
    || IsUpdatingAtomic (AsNode2D gii) = true ->
  SignalViewport2D w (KiIsNode2D vpn) (KiIsNode2D gii) sig data =
  Some (if IsDeleted (AsNode2D gii) || IsDestroyed (AsNode2D gii)
        then w
        else emit w [LogPrintf (updating_error (AsNode2D gii))]).
Proof.
  intros Hid Hign. unfold SignalViewport2D. simpl. rewrite Hid.
  destruct (IsDeleted (AsNode2D gii) || IsDestroyed (AsNode2D gii)); [reflexivity|].
  simpl in Hign. now rewrite Hign.
Qed.

(** The viewport's own flags are checked where the viewport receives its
    own signal: the receiver connected by [Init2D] starts no full render
    for a deleted or destroyed viewport. *)
Lemma Init2D_receiver_deleted (w : World) (id : nat) (vp : Viewport2D) (rn : Node2D) :
  vps w !! id = Some vp ->
  Update2DTrace w = false ->
  IsDeleted (Base vp) || IsDestroyed (Base vp) = true ->
  Init2D_receiver w id (KiIsNode2D rn) = Some w.
Proof.
  intros Hvp Htr Hd. unfold Init2D_receiver. simpl. rewrite Hvp. simpl.
  rewrite Htr. simpl.
  apply orb_true_iff in Hd as [Hd | Hd]; rewrite Hd; simpl;
    [reflexivity | now rewrite andb_false_r].
Qed.


End Signal.

Lemma SignalViewport2D_ignored_witness :
  SignalViewport2D (H := kiConsts) Examples.world0 (KiIsNode2D Examples.mainNode)
    (KiIsNode2D (Examples.slider (Z.shiftl 1 7) true false None)) 1 (DataInt64 4096)
  = Some Examples.world0.
Proof.
  apply (SignalViewport2D_ignored (H := kiConsts) Examples.world0 Examples.mainNode
           (Examples.slider (Z.shiftl 1 7) true false None) 0 1 (DataInt64 4096));
    reflexivity.
Defined.

(** C3 as stated fails twice.  A live node that signals mid-update is not
    passed over in silence: the classifier logs an ERROR line.  And the
    flags of the destination viewport are not looked at: a structure
    update from a live node makes a deleted viewport render its full
    tree. *)
Lemma SignalViewport2D_ignore_not_as_claimed :
  Claimed.ignored (H := kiConsts) Examples.mainVp
    (Examples.slider (Z.shiftl 1 1) true false None) = true /\
  Examples.events_of
    (SignalViewport2D (H := kiConsts) Examples.world0 (KiIsNode2D Examples.mainNode)
       (KiIsNode2D (Examples.slider (Z.shiftl 1 1) true false None)) 1 (DataInt64 4096))
  = Some [LogPrintf (updating_error (Examples.sliderBase (Z.shiftl 1 1)))] /\
  Claimed.ignored (H := kiConsts) Examples.deletedMainVp
    (Examples.slider 0 true false None) = true /\
  Examples.events_of
    (SignalViewport2D (H := kiConsts) Examples.worldDeletedMain
       (KiIsNode2D Examples.deletedMainNode)
       (KiIsNode2D (Examples.slider 0 true false None)) 1 (DataInt64 256))
  = Some [FullRender2DTree 0].
Proof. vm_compute. repeat split. Qed.



(** The scenarios of the specification on the concrete world: a value
    update from a slider that can re-render itself re-renders that node;
    a structure update re-renders the full tree; without self re-render
    and without anchor the fallback restyles and re-renders the viewport
    subtree. *)
Example SignalViewport2D_scenarios :
  Examples.events_of
    (SignalViewport2D (H := kiConsts) Examples.world0 (KiIsNode2D Examples.mainNode)
       (KiIsNode2D (Examples.slider 0 true false None)) 1 (DataInt64 4096))
  = Some [Render2DTree 7] /\
  Examples.events_of
    (SignalViewport2D (H := kiConsts) Examples.world0 (KiIsNode2D Examples.mainNode)
       (KiIsNode2D (Examples.slider 0 true false None)) 1 (DataInt64 256))
  = Some [FullRender2DTree 0] /\
  Examples.events_of
    (SignalViewport2D (H := kiConsts) Examples.world0 (KiIsNode2D Examples.mainNode)
       (KiIsNode2D (Examples.slider 0 false false None)) 1 (DataInt64 4096))
  = Some [Style2DTree 7; ReRender2DTree 0].
Proof. vm_compute. repeat split. Qed.

End SignalFacts.

Module KeyFunsFacts.
Import KeyFunsString.

Example String_3 : String 3 = "KeyFunMoveRight"%string.
Proof. reflexivity. Qed.

Example String_last : String 49 = "KeyFunsN"%string.
Proof. reflexivity. Qed.

Example String_out : String (-7) = "KeyFuns(-7)"%string.
Proof. reflexivity. Qed.

Example FromString_unknown :
  FromString 5 "KeyFunNope" =
  (5, Some "String KeyFunNope is not a valid option for type KeyFuns"%string).
Proof. reflexivity. Qed.

Lemma roundtrip_all : forallb roundtrip_at (seq 0 (Z.to_nat KeyFunsLen)) = true.
Proof. vm_compute. reflexivity. Qed.

Lemma FromString_loop_String (i : Z) :
  0 <= i < KeyFunsLen ->
  FromString_loop (Z.to_nat KeyFunsLen) 0 (String i) = Some i.
Proof.
  intros Hi.
  pose proof roundtrip_all as Hall.
  rewrite forallb_forall in Hall.
  assert (Hin : In (Z.to_nat i) (seq 0 (Z.to_nat KeyFunsLen))).
  { apply in_seq. lia. }
  specialize (Hall _ Hin). unfold roundtrip_at in Hall.
  rewrite Z2Nat.id in Hall by lia.
  destruct (FromString_loop _ _ _) as [k|]; [|discriminate].
  apply Z.eqb_eq in Hall. now subst.
Qed.

(** C10: for every in-range code [i], [FromString] applied to [String i]
    returns a nil error and sets the receiver to exactly [i], whatever the
    receiver held before. *)
Theorem FromString_String_roundtrip (i i0 : KeyFuns) :
  0 <= i < KeyFunsLen ->
  FromString i0 (String i) = (i, None).
Proof.
  intros Hi. unfold FromString.
  now rewrite FromString_loop_String.
Qed.

Lemma FromString_String_roundtrip_witness :
  0 <= 19 < KeyFunsLen /\ FromString 0 (String 19) = (19, None).
Proof.
  split; [vm_compute; split; [discriminate | reflexivity]|].
  apply (FromString_String_roundtrip 19 0).
  vm_compute; split; [discriminate | reflexivity].
Defined.

End KeyFunsFacts.

(** ** More on the [KeyFuns] name table *)

Module KeyFunsMore.
Import KeyFunsString KeyFunsFacts.

Local Open Scope string_scope.

(** What the loop of [FromString] returns is a code it went through whose
    name is the string. *)
Lemma FromString_loop_sound (n : nat) (j : Z) (s : string) (k : KeyFuns) :
  FromString_loop n j s = Some k ->
  (j <= k < j + Z.of_nat n)%Z /\ name_slice k = s.
Proof.
  revert j. induction n as [|n IH]; intros j Hl; [discriminate|].
  cbn [FromString_loop] in Hl.
  destruct (String.eqb s (name_slice j)) eqn:He.
  - inversion Hl; subst k. apply String.eqb_eq in He. split; [lia | now symmetry].
  - apply IH in Hl as [Hk Hs]. split; [lia | exact Hs].
Qed.

(** When the loop finds nothing, the string is none of the names it went
    through. *)
Lemma FromString_loop_complete (n : nat) (j : Z) (s : string) :
  FromString_loop n j s = None ->
  forall k, (j <= k < j + Z.of_nat n)%Z -> name_slice k <> s.
Proof.
  revert j. induction n as [|n IH]; intros j Hl k Hk; [lia|].
  cbn [FromString_loop] in Hl.
  destruct (String.eqb s (name_slice j)) eqn:He; [discriminate|].
  destruct (Z.eq_dec k j) as [->|Hne].
  - apply String.eqb_neq in He. congruence.
  - apply (IH (j + 1)%Z Hl). lia.
Qed.

Lemma String_in_range (i : KeyFuns) :
  (0 <= i < KeyFunsLen)%Z -> String i = name_slice i.
Proof.
  intros Hi. unfold String.
  destruct (Z.ltb_spec i 0); [lia|].
  destruct (Z.geb_spec i KeyFunsLen); [lia|]. reflexivity.
Qed.

Lemma String_out_of_range (i : KeyFuns) :
  (i < 0 \/ KeyFunsLen <= i)%Z -> String i = "KeyFuns(" ++ FormatInt i ++ ")".
Proof.
  intros Hi. unfold String.
  destruct (Z.ltb_spec i 0); [reflexivity|].
  destruct (Z.geb_spec i KeyFunsLen); [reflexivity | lia].
Qed.

(** No name of the table starts like the numeric form. *)
Lemma FromString_loop_numeric (t : string) :
  FromString_loop (Z.to_nat KeyFunsLen) 0 ("KeyFuns(" ++ t) = None.
Proof. vm_compute. reflexivity. Qed.

Lemma append_inv_tail (a b : string) (c : ascii) :
  a ++ String.String c EmptyString = b ++ String.String c EmptyString -> a = b.
Proof.
  revert b. induction a as [|x a IH]; intros [|y b] Hab; simpl in Hab.
  - reflexivity.
  - injection Hab as _ Hab. destruct b; discriminate.
  - injection Hab as _ Hab. destruct a; discriminate.
  - injection Hab as -> Hab. f_equal. now apply IH.
Qed.

Lemma FormatInt_inj (i j : Z) : FormatInt i = FormatInt j -> i = j.
Proof.
  unfold FormatInt. intros Hij.
  assert (Hnn : forall z, Z.to_int z <> Decimal.Pos Decimal.Nil /\
                          Z.to_int z <> Decimal.Neg Decimal.Nil).
  { intros [|p|p]; simpl; split; try discriminate;
      intros Hp; injection Hp as Hp;
      now apply DecimalPos.Unsigned.to_uint_nonnil in Hp. }
  apply DecimalZ.to_int_inj.
  assert (Hs : Some (Z.to_int i) = Some (Z.to_int j)).
  { rewrite <- (NilZero.isi (Z.to_int i)), <- (NilZero.isi (Z.to_int j)), Hij
      by apply Hnn. reflexivity. }
  now injection Hs.
Qed.

(** X1: when [FromString] succeeds, the code it stores is one of the named
    codes and [String] of that code is the string that was parsed. *)
Theorem FromString_sound (i0 j : KeyFuns) (s : string) :
  FromString i0 s = (j, None) ->
  (0 <= j < KeyFunsLen)%Z /\ String j = s.
Proof.
  unfold FromString. intros Hf.
  destruct (FromString_loop _ _ _) as [k|] eqn:Hl; [|discriminate].
  inversion Hf; subst k.
  apply FromString_loop_sound in Hl as [Hk Hs].
  rewrite Z2Nat.id in Hk by (vm_compute; discriminate).
  split; [lia|]. rewrite String_in_range by lia. exact Hs.
Qed.

Lemma FromString_sound_witness :
  (0 <= 26 < KeyFunsLen)%Z /\ String 26 = "KeyFunPaste".
Proof.
  apply (FromString_sound 0 26 "KeyFunPaste"). reflexivity.
Defined.

(** X2: when [FromString] returns an error, the receiver keeps the value
    it had and the string is the name of no named code. *)
Theorem FromString_error (i0 i : KeyFuns) (s e : string) :
  FromString i0 s = (i, Some e) ->
  i = i0 /\ forall j, (0 <= j < KeyFunsLen)%Z -> String j <> s.
Proof.
  unfold FromString. intros Hf.
  destruct (FromString_loop _ _ _) as [k|] eqn:Hl; [discriminate|].
  inversion Hf; subst. split; [reflexivity|].
  intros j Hj. rewrite String_in_range by exact Hj.
  apply (FromString_loop_complete _ _ _ Hl).
  rewrite Z2Nat.id by (vm_compute; discriminate). lia.
Qed.

Lemma FromString_error_witness :
  7%Z = 7%Z /\ forall j, (0 <= j < KeyFunsLen)%Z -> String j <> "keyfuncopy".
Proof.
  apply (FromString_error 7 7 "keyfuncopy"
           "String keyfuncopy is not a valid option for type KeyFuns").
  reflexivity.
Defined.

(** X3: the numeric form that [String] gives a code outside the table is
    not read back: [FromString] returns its error and leaves the receiver
    as it was. *)
Theorem FromString_String_out_of_range (i i0 : KeyFuns) :
  (i < 0 \/ KeyFunsLen <= i)%Z ->
  FromString i0 (String i) =
  (i0, Some ("String " ++ String i ++ " is not a valid option for type KeyFuns")).
Proof.
  intros Hi. unfold FromString.
  rewrite (String_out_of_range i Hi) at 1.
  now rewrite FromString_loop_numeric.
Qed.

Lemma FromString_String_out_of_range_witness :
  FromString 3 (String 50) =
  (3%Z, Some ("String " ++ String 50 ++ " is not a valid option for type KeyFuns")).
Proof.
  apply (FromString_String_out_of_range 50 3). right. vm_compute. discriminate.
Defined.

(** X4: [String] gives different codes different strings, inside the
    table, outside it and across. *)
Theorem String_injective (i j : KeyFuns) : String i = String j -> i = j.
Proof.
  intros Hij.
  assert (Hmixed : forall a b : KeyFuns,
             (0 <= a < KeyFunsLen)%Z -> (b < 0 \/ KeyFunsLen <= b)%Z ->
             String a = String b -> False).
  { intros a b Ha Hb Hab.
    pose proof (FromString_loop_String a Ha) as Hl.
    rewrite Hab, (String_out_of_range b Hb), FromString_loop_numeric in Hl.
    discriminate. }
  destruct (Z_lt_dec i 0) as [Hi|Hi]; [|destruct (Z_le_dec KeyFunsLen i) as [Hi'|Hi']];
    (destruct (Z_lt_dec j 0) as [Hj|Hj]; [|destruct (Z_le_dec KeyFunsLen j) as [Hj'|Hj']]);
    try (exfalso; apply (Hmixed i j); [lia | lia | exact Hij]);
    try (exfalso; apply (Hmixed j i); [lia | lia | now symmetry]);
    try (rewrite (String_out_of_range i), (String_out_of_range j) in Hij by lia;
         injection Hij as Hij; apply append_inv_tail in Hij;
         now apply FormatInt_inj).
  pose proof (FromString_loop_String i ltac:(lia)) as Hl.
  rewrite Hij, (FromString_loop_String j) in Hl by lia.
  now injection Hl.
Qed.

Lemma String_injective_witness : (12 + 1)%Z = 13%Z.
Proof.
  apply (String_injective (12 + 1) 13). reflexivity.
Defined.

End KeyFunsMore.

(** ** Buffers: creation, [Resize], [BBox2D], [ComputeBBox2D] *)

Module BufferFacts.
Import image gi DrawFacts ResizeFacts.

Lemma Size_NewRGBA (sz : Point) : Size (Bounds (NewRGBA sz)) = sz.
Proof. destruct sz. unfold Size, Dx, Dy. simpl. f_equal; lia. Qed.

Lemma newImageErr_set_vp (w : World) (id : nat) (vp : Viewport2D) :
  newImageErr (set_vp w id vp) = newImageErr w.
Proof. reflexivity. Qed.

(** With no zero dimension and no buffer of the size asked for, [Resize]
    goes on to allocate. *)
Lemma Resize_other_size (w : World) (id : nat) (vp : Viewport2D) (nwsz : Point) :
  vps w !! id = Some vp ->
  (X nwsz =? 0) || (Y nwsz =? 0) = false ->
  other_size w vp nwsz ->
  Resize w id nwsz = Some (Resize_alloc w id vp nwsz).
Proof.
  intros Hvp Hnz Hsz. unfold Resize. rewrite Hvp. simpl. rewrite Hnz.
  unfold other_size in Hsz. destruct (Pixels vp) as [b|]; [|reflexivity].
  destruct Hsz as (im & Him & Hne). rewrite Him. simpl. now rewrite Hne.
Qed.

Lemma Release_fields (w : World) (o : nat) :
  newImageErr (Release w o) = newImageErr w /\
  nextImage (Release w o) = nextImage w /\
  events (Release w o) = events w /\
  vps (Release w o) = vps w.
Proof. unfold Release. destruct (images w !! o); repeat split. Qed.

(** The buffer a successful allocation installs. *)
Lemma Resize_alloc_ok (w : World) (id : nat) (vp : Viewport2D) (nwsz : Point) :
  newImageErr w nwsz = None ->
  exists vp',
    vps (Resize_alloc w id vp nwsz) !! id = Some vp' /\
    Pixels vp' = Some (nextImage w) /\
    ViewBox_Size (ViewBox vp') = nwsz /\
    images (Resize_alloc w id vp nwsz) !! nextImage w
      = Some (mkOSImg (NewRGBA nwsz) false).
Proof.
  intros Hok. unfold Resize_alloc, NewImage.
  destruct (OSImage vp) as [o|].
  - destruct (Release_fields w o) as (He & Hn & _ & _). rewrite He, Hok, Hn.
    eexists. rewrite lookup_set_vp. split; [reflexivity|]. simpl.
    now rewrite lookup_insert_eq.
  - rewrite Hok. eexists. rewrite lookup_set_vp. split; [reflexivity|]. simpl.
    now rewrite lookup_insert_eq.
Qed.

(** X5: [Resize] to a new size with no zero dimension, when the allocation
    succeeds: the viewport gets a fresh transparent buffer of exactly that
    size with its origin at (0,0), [Pixels], [OSImage] and the render state
    all point to it, the view box has the new size, the image it owned
    before is released, nothing is logged and no other viewport is
    touched. *)
Theorem Resize_new_buffer (w : World) (id : nat) (vp : Viewport2D) (nwsz : Point) :
  vps w !! id = Some vp ->
  (X nwsz =? 0) || (Y nwsz =? 0) = false ->
  other_size w vp nwsz ->
  newImageErr w nwsz = None ->
  exists w' vp',
    Resize w id nwsz = Some w' /\
    vps w' !! id = Some vp' /\
    Pixels vp' = Some (nextImage w) /\
    OSImage vp' = Some (nextImage w) /\
    paint.Image (Render vp') = Some (nextImage w) /\
    ViewBox_Size (ViewBox vp') = nwsz /\
    images w' !! nextImage w = Some (mkOSImg (NewRGBA nwsz) false) /\
    nextImage w' = S (nextImage w) /\
    events w' = events w /\
    (forall o im, OSImage vp = Some o -> o <> nextImage w -> images w !! o = Some im ->
                  images w' !! o = Some (mkOSImg (RGBA_of im) true)) /\
    (forall j, j <> id -> vps w' !! j = vps w !! j).
Proof.
  intros Hvp Hnz Hsz Hok.
  rewrite (Resize_other_size w id vp nwsz Hvp Hnz Hsz).
  unfold Resize_alloc, NewImage.
  destruct (OSImage vp) as [o|] eqn:Hos.
  - destruct (Release_fields w o) as (He & Hn & Hev & Hv). rewrite He, Hok, Hn.
    eexists _, _. split; [reflexivity|]. rewrite lookup_set_vp.
    split; [reflexivity|]. simpl. rewrite lookup_insert_eq.
    repeat split; try assumption.
    + intros o' im Ho' Hne Him. injection Ho' as <-.
      rewrite lookup_insert_ne by congruence.
      unfold Release. rewrite Him. simpl. now rewrite lookup_insert_eq.
    + intros j Hj. rewrite lookup_insert_ne by congruence. now rewrite Hv.
  - rewrite Hok. eexists _, _. split; [reflexivity|]. rewrite lookup_set_vp.
    split; [reflexivity|]. simpl. rewrite lookup_insert_eq.
    repeat split; try discriminate.
    intros j Hj. now rewrite lookup_insert_ne by congruence.
Qed.

Lemma Resize_new_buffer_witness :
  exists w' vp',
    Resize Examples.world0 0 (mkPoint 3 5) = Some w' /\
    vps w' !! 0%nat = Some vp' /\
    Pixels vp' = Some 3%nat /\
    OSImage vp' = Some 3%nat /\
    paint.Image (Render vp') = Some 3%nat /\
    ViewBox_Size (ViewBox vp') = mkPoint 3 5 /\
    images w' !! 3%nat = Some (mkOSImg (NewRGBA (mkPoint 3 5)) false) /\
    nextImage w' = 4%nat /\
    events w' = [] /\
    (forall o im, OSImage Examples.mainVp = Some o -> o <> 3%nat ->
                  images Examples.world0 !! o = Some im ->
                  images w' !! o = Some (mkOSImg (RGBA_of im) true)) /\
    (forall j, j <> 0%nat -> vps w' !! j = vps Examples.world0 !! j).
Proof.
  apply (Resize_new_buffer Examples.world0 0 Examples.mainVp (mkPoint 3 5));
    try reflexivity.
  eexists. split; reflexivity.
Defined.




Section BBox.
Context `{Consts}.

Lemma Qceiling_nonzero (x : Q) : Qceiling x <> 0 -> Qeq_bool x 0 = false.
Proof.
  intros Hx. destruct (Qeq_bool x 0) eqn:He; [|reflexivity].
  now apply Qceiling_zero in He.
Qed.

Lemma Pixels_Bounds_set_vp (w : World) (id : nat) (vp vp' : Viewport2D) :
  Pixels_Bounds (set_vp w id vp') vp = Pixels_Bounds w vp.
Proof. reflexivity. Qed.

(** X7: for a viewport that follows its layout (not a popup, or still
    without a buffer) and was allocated a size that rounds up to no zero
    dimension, [BBox2D] returns a rectangle of exactly the rounded-up
    allocated size, the bounds of the buffer the viewport then has, and
    the view box takes that size; the allocator is asked for that size and
    must not fail. *)
Theorem BBox2D_allocated_size (w : World) (id : nat) (vp : Viewport2D) :
  vps w !! id = Some vp ->
  is_nil (Pixels vp) || negb (IsPopup vp) = true ->
  (X (Vec2D_ToPointCeil (AllocSize (Base vp))) =? 0)
    || (Y (Vec2D_ToPointCeil (AllocSize (Base vp))) =? 0) = false ->
  (forall b, Pixels vp = Some b -> is_Some (images w !! b)) ->
  newImageErr w (Vec2D_ToPointCeil (AllocSize (Base vp))) = None ->
  exists w' r vp',
    BBox2D w id = Some (w', r) /\
    Size r = Vec2D_ToPointCeil (AllocSize (Base vp)) /\
    vps w' !! id = Some vp' /\
    Pixels_Bounds w' vp' = Some r /\
    ViewBox_Size (ViewBox vp') = Vec2D_ToPointCeil (AllocSize (Base vp)).
Proof.
  intros Hvp Hlay Hnz Hbuf Hok.
  assert (Hz : Vec2D_IsZero (AllocSize (Base vp)) = false).
  { apply orb_false_iff in Hnz as [Hx _]. apply Z.eqb_neq in Hx.
    unfold Vec2D_IsZero. now rewrite (Qceiling_nonzero _ Hx). }
  unfold BBox2D. rewrite Hvp. simpl. rewrite Hlay, Hz. simpl.
  remember (Vec2D_ToPointCeil (AllocSize (Base vp))) as asz eqn:Hasz.
  destruct (Pixels vp) as [b|] eqn:Hp.
  - destruct (Hbuf b eq_refl) as [im Him].
    destruct (Point_eqb (Size (Bounds (RGBA_of im))) asz) eqn:Hs.
    + unfold Resize. rewrite Hvp. simpl. rewrite Hnz, Hp. simpl. rewrite Him. simpl.
      rewrite Hs. simpl. rewrite lookup_insert_eq. simpl.
      unfold Pixels_Bounds. simpl. rewrite Hp. simpl. rewrite Him. simpl.
      eexists _, _, _. split; [reflexivity|].
      split; [now apply Point_eqb_eq|].
      split; [apply lookup_set_vp|].
      simpl. rewrite Hp. simpl. rewrite Him. split; reflexivity.
    + rewrite (Resize_other_size w id vp asz Hvp Hnz)
        by (unfold other_size; rewrite Hp; now exists im).
      destruct (Resize_alloc_ok w id vp asz Hok) as (vp' & Hv' & Hp' & Hvb & Hi').
      simpl. rewrite Hv'. simpl.
      unfold Pixels_Bounds. rewrite Hp'. simpl. rewrite Hi'. simpl.
      eexists _, _, _. split; [reflexivity|].
      split; [apply Size_NewRGBA|]. split; [exact Hv'|].
      rewrite Hp'. simpl. rewrite Hi'. split; [reflexivity | exact Hvb].
  - rewrite (Resize_other_size w id vp asz Hvp Hnz)
      by (unfold other_size; now rewrite Hp).
    destruct (Resize_alloc_ok w id vp asz Hok) as (vp' & Hv' & Hp' & Hvb & Hi').
    simpl. rewrite Hv'. simpl.
    unfold Pixels_Bounds. rewrite Hp'. simpl. rewrite Hi'. simpl.
    eexists _, _, _. split; [reflexivity|].
    split; [apply Size_NewRGBA|]. split; [exact Hv'|].
    rewrite Hp'. simpl. rewrite Hi'. split; [reflexivity | exact Hvb].
Qed.

(** X8: a popup that has a buffer keeps it in [BBox2D], whatever size the
    layout allocated: the world is left as it is and the bounds of the
    buffer are returned. *)
Theorem BBox2D_popup_keeps_buffer (w : World) (id b : nat) (vp : Viewport2D) (im : OSImg) :
  vps w !! id = Some vp ->
  IsPopup vp = true ->
  Pixels vp = Some b ->
  images w !! b = Some im ->
  BBox2D w id = Some (w, Bounds (RGBA_of im)).
Proof.
  intros Hvp Hpop Hp Him. unfold BBox2D. rewrite Hvp. simpl.
  rewrite Hp, Hpop. simpl. rewrite Hvp. simpl.
  unfold Pixels_Bounds. rewrite Hp. simpl. now rewrite Him.
Qed.

(** X9: a viewport just made by [NewViewport2D], put into the tree before
    any layout has allocated it a size, reports the size it was created
    with: [BBox2D] returns (0,0)-(width,height) and changes nothing. *)
Theorem BBox2D_NewViewport2D (w w1 : World) (width height : Z) (vp : Viewport2D) (id : nat) :
  NewViewport2D w width height = (w1, Some vp) ->
  BBox2D (set_vp w1 id vp) id =
  Some (set_vp w1 id vp, mkRectangle ZP (mkPoint width height)).
Proof.
  unfold NewViewport2D, NewImage. intros Hn.
  destruct (newImageErr w (mkPoint width height)); [discriminate|].
  inversion Hn; subst w1 vp. clear Hn.
  unfold BBox2D. rewrite lookup_set_vp. simpl.
  rewrite lookup_insert_eq. simpl.
  unfold Pixels_Bounds. simpl. now rewrite lookup_insert_eq.
Qed.

(** X10: [ComputeBBox2D] makes the viewport box the bounds of the buffer,
    takes the position from the layout unless the viewport is a popup
    (which keeps the position it was placed at), and moves the window box
    that [SetWinBBox] computed by that position; the buffers are not
    touched. *)
Theorem ComputeBBox2D_boxes (S : World -> Viewport2D -> Rectangle) (w : World)
    (id : nat) (vp : Viewport2D) (b : Rectangle) :
  vps w !! id = Some vp ->
  Pixels_Bounds w vp = Some b ->
  exists w' vp',
    ComputeBBox2D S w id = Some w' /\
    vps w' !! id = Some vp' /\
    VpBBox (Base vp') = b /\
    ViewBox_Min (ViewBox vp') =
      (if IsPopup vp then ViewBox_Min (ViewBox vp)
       else Vec2D_ToPointFloor (AllocPos (Base vp))) /\
    WinBBox (Base vp') =
      Rectangle_Add (S w (with_Base vp (with_VpBBox (Base vp) b)))
        (if IsPopup vp then ViewBox_Min (ViewBox vp)
         else Vec2D_ToPointFloor (AllocPos (Base vp))) /\
    Size (WinBBox (Base vp')) = Size (S w (with_Base vp (with_VpBBox (Base vp) b))) /\
    images w' = images w /\
    Pixels vp' = Pixels vp.
Proof.
  intros Hvp Hb. unfold ComputeBBox2D. rewrite Hvp. simpl. rewrite Hb. simpl.
  change (IsPopup (with_Base _ _)) with (IsPopup vp).
  eexists _, _. split; [reflexivity|]. rewrite lookup_set_vp.
  split; [reflexivity|].
  destruct (IsPopup vp); simpl; repeat split;
    unfold Size, Dx, Dy, Rectangle_Add, Point_Add; simpl; f_equal; lia.
Qed.

End BBox.

Lemma BBox2D_allocated_size_witness :
  exists w' r vp',
    BBox2D (H := kiConsts) (set_vp Examples.world0 3 Examples.slantVp) 3 = Some (w', r) /\
    Size r = mkPoint 3 5 /\
    vps w' !! 3%nat = Some vp' /\
    Pixels_Bounds w' vp' = Some r /\
    ViewBox_Size (ViewBox vp') = mkPoint 3 5.
Proof.
  apply (BBox2D_allocated_size (H := kiConsts) (set_vp Examples.world0 3 Examples.slantVp)
           3 Examples.slantVp); try reflexivity.
  intros b Hb. discriminate.
Defined.

Lemma BBox2D_popup_keeps_buffer_witness :
  BBox2D (H := kiConsts) Examples.worldPopup 5 =
  Some (Examples.worldPopup, Examples.rect 0 0 2 2).
Proof.
  apply (BBox2D_popup_keeps_buffer (H := kiConsts) Examples.worldPopup 5 3
           Examples.popupVp (mkOSImg (Examples.solid (mkPoint 2 2) Examples.red) false));
    reflexivity.
Defined.

Lemma BBox2D_NewViewport2D_witness :
  BBox2D (H := kiConsts)
    (set_vp (fst (NewViewport2D Examples.world0 7 4)) 9 (Examples.newVp 7 4)) 9 =
  Some (set_vp (fst (NewViewport2D Examples.world0 7 4)) 9 (Examples.newVp 7 4),
        Examples.rect 0 0 7 4).
Proof.
  apply (BBox2D_NewViewport2D (H := kiConsts) Examples.world0 _ 7 4 _ 9). reflexivity.
Defined.

Lemma ComputeBBox2D_boxes_witness :
  exists w' vp',
    ComputeBBox2D (H := kiConsts) Examples.winBox Examples.world0 2 = Some w' /\
    vps w' !! 2%nat = Some vp' /\
    VpBBox (Base vp') = Examples.rect 0 0 2 2 /\
    ViewBox_Min (ViewBox vp') = mkPoint 1 1 /\
    WinBBox (Base vp') = Examples.rect 1 1 3 3 /\
    Size (WinBBox (Base vp')) = mkPoint 2 2 /\
    images w' = images Examples.world0 /\
    Pixels vp' = Some 2%nat.
Proof.
  apply (ComputeBBox2D_boxes (H := kiConsts) Examples.winBox Examples.world0 2
           Examples.nestedVp (Examples.rect 0 0 2 2)); reflexivity.
Defined.

End BufferFacts.

(** ** Where a viewport's pixels go *)

Module WindowFacts.
Import image draw gi DrawFacts ResizeFacts RenderFacts.

Lemma events_trace_line (on : bool) (line : string) (w : World) :
  events (trace_line on line w) = events w ++ (if on then [Printf line] else []).
Proof. destruct on; simpl; [reflexivity | now rewrite app_nil_r]. Qed.

Lemma images_trace_line (on : bool) (line : string) (w : World) :
  images (trace_line on line w) = images w.
Proof. now destruct on. Qed.

Section Window.
Context `{Consts}.
Variable FillViewport : World -> nat -> option World.
Variable Render2DChildren : World -> nat -> option World.

(** [RenderViewport2D] leaves every render state as it is, the
    viewport's own included. *)
Lemma RenderViewport2D_Render (w w' : World) (id j : nat) :
  RenderViewport2D w id = Some w' ->
  Render <$> vps w' !! j = Render <$> vps w !! j.
Proof.
  intros Hr. destruct (Nat.eq_dec j id) as [->|Hne].
  2: { now rewrite (RenderViewport2D_others _ _ _ _ Hr Hne). }
  unfold RenderViewport2D, SetCurWin, UploadToWin, UploadMainToWin in Hr.
  destruct (vps w !! id) as [vp|] eqn:Hvp; [|discriminate]. simpl in Hr.
  destruct (IsPopup vp).
  - destruct (ParentWindow vp) as [pwin|]; simpl in Hr.
    + rewrite vps_trace_line, lookup_set_vp in Hr. simpl in Hr.
      inversion Hr; subst w'. simpl. rewrite vps_trace_line, lookup_set_vp.
      reflexivity.
    + rewrite vps_trace_line, Hvp in Hr. simpl in Hr.
      destruct (Win vp); inversion Hr; subst w'; simpl;
        rewrite vps_trace_line, Hvp; reflexivity.
  - destruct (Viewport (Base vp)).
    + apply DrawIntoParent_vps in Hr. now rewrite Hr, vps_trace_line, Hvp.
    + rewrite vps_trace_line, Hvp in Hr. simpl in Hr.
      destruct (Win vp); inversion Hr; subst w'; simpl;
        rewrite vps_trace_line, Hvp; reflexivity.
Qed.

(** X11: a popup goes to the window and nowhere else.  It first takes the
    window it is under, when there is one, then uploads its buffer there at
    the corner of its window box, inside one update of that window; no
    pixel buffer is drawn into, even when the popup has a parent viewport.
    A popup that knows no window uploads nothing. *)
Theorem RenderViewport2D_popup (w : World) (id : nat) (vp : Viewport2D) :
  vps w !! id = Some vp ->
  IsPopup vp = true ->
  exists w',
    RenderViewport2D w id = Some w' /\
    images w' = images w /\
    Win <$> vps w' !! id =
      Some (match ParentWindow vp with Some pwin => Some pwin | None => Win vp end) /\
    events w' =
      events w
      ++ (if Render2DTrace w then [Printf "Render: Popup UploadToWin"] else [])
      ++ match ParentWindow vp, Win vp with
         | Some win, _ | None, Some win =>
             [UpdateStart win; UploadVp win id (Min (WinBBox (Base vp))); UpdateEnd win]
         | None, None => []
         end.
Proof.
  intros Hvp Hpop. unfold RenderViewport2D, SetCurWin, UploadToWin.
  rewrite Hvp. simpl. rewrite Hpop.
  destruct (ParentWindow vp) as [pwin|]; simpl.
  - rewrite vps_trace_line, lookup_set_vp. simpl.
    eexists. split; [reflexivity|]. simpl.
    rewrite images_trace_line, vps_trace_line, events_trace_line, lookup_set_vp.
    simpl. rewrite <- app_assoc. repeat split.
  - rewrite vps_trace_line, Hvp. simpl.
    destruct (Win vp) as [win|] eqn:Hwin; eexists; (split; [reflexivity|]); simpl;
      rewrite images_trace_line, vps_trace_line, events_trace_line, Hvp; simpl;
      rewrite ?Hwin, <- ?app_assoc, ?app_nil_r; repeat split.
Qed.

(** X12: a viewport that is no popup and has a parent viewport never
    calls the window: whenever [RenderViewport2D] returns, the only event
    it may have added is its trace line, no viewport has changed and no
    image was allocated; its pixels went into the parent's buffer, which is
    the only image that may differ. *)
Theorem RenderViewport2D_sub (w w' : World) (id pid : nat) (vp par : Viewport2D) :
  vps w !! id = Some vp ->
  IsPopup vp = false ->
  Viewport (Base vp) = Some pid ->
  vps w !! pid = Some par ->
  RenderViewport2D w id = Some w' ->
  vps w' = vps w /\
  nextImage w' = nextImage w /\
  events w' =
    events w ++ (if Render2DTrace w then [Printf "Render: DrawIntoParent"] else []) /\
  forall k, Pixels par <> Some k -> images w' !! k = images w !! k.
Proof.
  intros Hvp Hpop Hv Hpar. unfold RenderViewport2D. rewrite Hvp. simpl.
  rewrite Hpop, Hv.
  set (w0 := trace_line (Render2DTrace w) "Render: DrawIntoParent" w).
  assert (Hv0 : vps w0 = vps w) by apply vps_trace_line.
  assert (Hi0 : images w0 = images w) by apply images_trace_line.
  assert (Hn0 : nextImage w0 = nextImage w) by (unfold w0; now destruct (Render2DTrace w)).
  assert (He0 : events w0 = events w
                  ++ (if Render2DTrace w then [Printf "Render: DrawIntoParent"] else []))
    by apply events_trace_line.
  clearbody w0. unfold DrawIntoParent, draw_into. rewrite Hv0, Hvp. simpl.
  intros Hd.
  destruct (IsOverlay vp).
  - rewrite Hpar in Hd. simpl in Hd.
    destruct (Pixels_Bounds w0 vp); [|discriminate]. simpl in Hd.
    destruct (Pixels par) as [db|]; [|discriminate]. simpl in Hd.
    destruct (images w0 !! db); [|discriminate]. simpl in Hd.
    destruct (Pixels vp) as [sb|]; [|discriminate]. simpl in Hd.
    destruct (images w0 !! sb); [|discriminate]. simpl in Hd.
    inversion Hd; subst w'. simpl. repeat split; try assumption.
    intros k Hk. rewrite lookup_insert_ne by congruence. now rewrite Hi0.
  - destruct (match Par (Base vp) with
              | Some k => _
              | None => _
              end) as [rsp|]; [|discriminate]. simpl in Hd.
    rewrite Hpar in Hd. simpl in Hd.
    destruct (Pixels par) as [db|]; [|discriminate]. simpl in Hd.
    destruct (images w0 !! db); [|discriminate]. simpl in Hd.
    destruct (Pixels vp) as [sb|]; [|discriminate]. simpl in Hd.
    destruct (images w0 !! sb); [|discriminate]. simpl in Hd.
    inversion Hd; subst w'. simpl. repeat split; try assumption.
    intros k Hk. rewrite lookup_insert_ne by congruence. now rewrite Hi0.
Qed.

(** X13: a render pass of a viewport that is not an overlay is balanced.
    Whenever [Render2D] returns, the viewport's render state, current
    bounds and stack of saved bounds, is what it was on entry, as long as
    the fill and the children's passes leave it as they found it; this
    covers the early returns, where nothing is pushed. *)
Theorem Render2D_balanced (w w' : World) (id : nat) (vp : Viewport2D) :
  vps w !! id = Some vp ->
  IsOverlay vp = false ->
  (forall w1 w2, FillViewport w1 id = Some w2 ->
                 Render <$> vps w2 !! id = Render <$> vps w1 !! id) ->
  (forall w1 w2, Render2DChildren w1 id = Some w2 ->
                 Render <$> vps w2 !! id = Render <$> vps w1 !! id) ->
  Render2D FillViewport Render2DChildren w id = Some w' ->
  Render <$> vps w' !! id = Some (Render vp).
Proof.
  intros Hvp Hov HF HK Hr. unfold Render2D, PushBounds in Hr.
  rewrite Hvp in Hr. simpl in Hr. rewrite Hov in Hr.
  destruct (Empty (VpBBox (Base vp))).
  { simpl in Hr. inversion Hr; subst w'. now rewrite Hvp. }
  destruct (match Viewport (Base vp) with
            | Some pid => _
            | None => _
            end) as [[|]|]; simpl in Hr; [| |discriminate].
  { inversion Hr; subst w'. now rewrite Hvp. }
  unfold push_on in Hr. rewrite vps_trace_line, lookup_set_vp in Hr. simpl in Hr.
  set (w1 := trace_line _ _ _) in Hr.
  assert (H1 : Render <$> vps w1 !! id
               = Some (paint.PushBounds (Render vp) (VpBBox (Base vp)))).
  { unfold w1. now rewrite vps_trace_line, lookup_set_vp. }
  clearbody w1. change (Fill (with_Render vp _)) with (Fill vp) in Hr.
  assert (H2 : exists w2, (if Fill vp then FillViewport w1 id else Some w1) = Some w2 /\
                          Render <$> vps w2 !! id = Render <$> vps w1 !! id).
  { destruct (Fill vp).
    - destruct (FillViewport w1 id) as [w2|] eqn:Hf; [|discriminate].
      exists w2. split; [reflexivity|]. now apply HF.
    - now exists w1. }
  destruct H2 as (w2 & Hw2 & Hk2). simpl in Hw2. rewrite Hw2 in Hr. simpl in Hr.
  destruct (Render2DChildren w2 id) as [w3|] eqn:Hc; [|discriminate]. simpl in Hr.
  destruct (RenderViewport2D w3 id) as [w4|] eqn:Hrv; [|discriminate]. simpl in Hr.
  assert (H4 : Render <$> vps w4 !! id
               = Some (paint.PushBounds (Render vp) (VpBBox (Base vp)))).
  { rewrite (RenderViewport2D_Render _ _ _ id Hrv), (HK _ _ Hc), Hk2. exact H1. }
  unfold PopBounds in Hr.
  destruct (vps w4 !! id) as [vp4|]; [|discriminate]. simpl in Hr.
  inversion Hr; subst w'. rewrite lookup_set_vp. simpl.
  simpl in H4. injection H4 as ->. now rewrite PopBounds_PushBounds.
Qed.

(** X14: a viewport that is not an overlay and has nothing to show, an
    empty viewport box or a window box that does not meet that of its
    parent viewport, is not rendered at all: [Render2D] returns the world
    as it found it whatever the fill and the children's passes would do,
    so neither is called, nothing is composited and nothing is pushed. *)
Theorem Render2D_invisible (w : World) (id : nat) (vp : Viewport2D) :
  vps w !! id = Some vp ->
  IsOverlay vp = false ->
  Empty (VpBBox (Base vp)) = true \/
  (exists pid par,
     Viewport (Base vp) = Some pid /\ vps w !! pid = Some par /\
     Empty (Intersect (WinBBox (Base vp)) (WinBBox (Base par))) = true) ->
  Render2D FillViewport Render2DChildren w id = Some w.
Proof.
  intros Hvp Hov Hinv. unfold Render2D, PushBounds.
  rewrite Hvp. simpl. rewrite Hov.
  destruct (Empty (VpBBox (Base vp))) eqn:He; [reflexivity|].
  destruct Hinv as [Hinv | (pid & par & Hv & Hpar & Hi)]; [discriminate|].
  rewrite Hv. simpl. rewrite Hpar. simpl. now rewrite Hi.
Qed.

(** X15: [DrawIntoParent] guards against a nil parent viewport only for
    overlays: an overlay returns without drawing, any other viewport
    panics on [parVp.Pixels]. *)
Theorem DrawIntoParent_nil_parent (w : World) (id : nat) (vp : Viewport2D) :
  vps w !! id = Some vp ->
  DrawIntoParent w id None = if IsOverlay vp then Some w else None.
Proof.
  intros Hvp. unfold DrawIntoParent. rewrite Hvp. simpl.
  destruct (IsOverlay vp); [reflexivity|].
  now destruct (match Par (Base vp) with
                | Some k => _
                | None => _
                end).
Qed.

(** X16: a viewport that is not an overlay and has no tree parent draws
    its whole view box, unclipped: destination pixel [q] of the view-box
    rectangle receives source pixel [q - r.Min] wherever both buffers have
    the pixel, and every other pixel of the parent's buffer stays. *)
Theorem DrawIntoParent_no_Par (w : World) (id pid sb db : nat) (vp par : Viewport2D)
    (sim dim : OSImg) :
  vps w !! id = Some vp ->
  IsOverlay vp = false ->
  Par (Base vp) = None ->
  vps w !! pid = Some par ->
  Pixels vp = Some sb -> images w !! sb = Some sim ->
  Pixels par = Some db -> images w !! db = Some dim ->
  exists w' dim',
    DrawIntoParent w id (Some pid) = Some w' /\
    images w' !! db = Some dim' /\
    Bounds (RGBA_of dim') = Bounds (RGBA_of dim) /\
    forall q,
      Pix (RGBA_of dim') q =
      if In q (ViewBox2D_Bounds (ViewBox vp)) && In q (Bounds (RGBA_of dim))
         && In (Point_Sub q (Min (ViewBox2D_Bounds (ViewBox vp)))) (Bounds (RGBA_of sim))
      then over (Pix (RGBA_of sim) (Point_Sub q (Min (ViewBox2D_Bounds (ViewBox vp)))))
                (Pix (RGBA_of dim) q)
      else Pix (RGBA_of dim) q.
Proof.
  intros Hvp Hov Hk Hpar Hs Hsi Hd Hdi.
  unfold DrawIntoParent. rewrite Hvp. simpl. rewrite Hov, Hk. simpl.
  rewrite Hpar. simpl.
  rewrite (ComposeFacts.draw_into_spec _ _ _ _ _ _ _ _ _ Hs Hsi Hd Hdi).
  eexists _, _. split; [reflexivity|]. simpl.
  rewrite lookup_insert_eq. split; [reflexivity|]. simpl.
  split; [apply Draw_Bounds|].
  intros q. rewrite Draw_Pix.
  assert (Hsp : src_point (ViewBox2D_Bounds (ViewBox vp)) ZP q
                = Point_Sub q (Min (ViewBox2D_Bounds (ViewBox vp)))).
  { unfold src_point. destruct q, (Min (ViewBox2D_Bounds (ViewBox vp))).
    unfold Point_Add, Point_Sub. simpl. f_equal; lia. }
  now rewrite Hsp.
Qed.

(** X17: whatever it draws, [DrawIntoParent] changes pixels only: no
    viewport, no event, no allocation, and every image keeps its bounds
    and its released mark. *)
Theorem DrawIntoParent_frame (w w' : World) (id : nat) (parVp : option nat) :
  DrawIntoParent w id parVp = Some w' ->
  vps w' = vps w /\
  events w' = events w /\
  nextImage w' = nextImage w /\
  forall k,
    (fun im => (Bounds (RGBA_of im), released im)) <$> images w' !! k =
    (fun im => (Bounds (RGBA_of im), released im)) <$> images w !! k.
Proof.
  assert (Hdraw : forall par vp r sp,
            draw_into w par vp r sp = Some w' ->
            vps w' = vps w /\ events w' = events w /\ nextImage w' = nextImage w /\
            forall k,
              (fun im => (Bounds (RGBA_of im), released im)) <$> images w' !! k =
              (fun im => (Bounds (RGBA_of im), released im)) <$> images w !! k).
  { intros par vp r sp. unfold draw_into. intros Hd.
    destruct (Pixels par) as [db|]; [|discriminate]. simpl in Hd.
    destruct (images w !! db) as [dim|] eqn:Hdi; [|discriminate]. simpl in Hd.
    destruct (Pixels vp) as [sb|]; [|discriminate]. simpl in Hd.
    destruct (images w !! sb); [|discriminate]. simpl in Hd.
    inversion Hd; subst w'. simpl. repeat split.
    intros k. destruct (Nat.eq_dec db k) as [<-|Hne].
    - rewrite lookup_insert_eq, Hdi. simpl. now rewrite Draw_Bounds.
    - now rewrite lookup_insert_ne by exact Hne. }
  unfold DrawIntoParent. intros Hd.
  destruct (vps w !! id) as [vp|]; [|discriminate]. simpl in Hd.
  destruct (IsOverlay vp).
  - destruct parVp as [pid|]; [|inversion Hd; subst; repeat split].
    destruct (vps w !! pid) as [par|]; [|discriminate]. simpl in Hd.
    destruct (Pixels_Bounds w vp); [|discriminate]. simpl in Hd.
    now apply Hdraw in Hd.
  - destruct (match Par (Base vp) with
              | Some k => _
              | None => _
              end) as [rsp|]; [|discriminate]. simpl in Hd.
    destruct parVp as [pid|]; [|discriminate]. simpl in Hd.
    destruct (vps w !! pid) as [par|]; [|discriminate]. simpl in Hd.
    now apply Hdraw in Hd.
Qed.

End Window.

Lemma RenderViewport2D_popup_witness :
  exists w',
    RenderViewport2D (H := kiConsts) Examples.worldPopup 5 = Some w' /\
    images w' = images Examples.worldPopup /\
    Win <$> vps w' !! 5%nat = Some (Some 1%nat) /\
    events w' = [UpdateStart 1; UploadVp 1 5 (mkPoint 4 4); UpdateEnd 1].
Proof.
  apply (RenderViewport2D_popup (H := kiConsts) Examples.worldPopup 5 Examples.popupVp);
    reflexivity.
Defined.

Lemma RenderViewport2D_sub_witness :
  exists w',
    RenderViewport2D (H := kiConsts) Examples.world0 2 = Some w' /\
    vps w' = vps Examples.world0 /\
    nextImage w' = 3%nat /\
    events w' = [] /\
    forall k, Pixels Examples.mainVp <> Some k ->
              images w' !! k = images Examples.world0 !! k.
Proof.
  eexists. split; [vm_compute; reflexivity|].
  apply (RenderViewport2D_sub (H := kiConsts) Examples.world0 _ 2 0
           Examples.nestedVp Examples.mainVp); reflexivity.
Defined.

Lemma Render2D_balanced_witness :
  exists w',
    Render2D (H := kiConsts) Examples.nothing Examples.nothing Examples.world0 2 = Some w' /\
    Render <$> vps w' !! 2%nat = Some (Render Examples.nestedVp).
Proof.
  eexists. split; [vm_compute; reflexivity|].
  apply (Render2D_balanced (H := kiConsts) Examples.nothing Examples.nothing
           Examples.world0 _ 2 Examples.nestedVp); try reflexivity.
  - intros w1 w2 Hf. now inversion Hf.
  - intros w1 w2 Hf. now inversion Hf.
Defined.

Lemma Render2D_invisible_witness :
  Render2D (H := kiConsts) Examples.panics Examples.panics
    (set_vp Examples.world0 2 Examples.offscreenVp) 2
  = Some (set_vp Examples.world0 2 Examples.offscreenVp).
Proof.
  apply (Render2D_invisible (H := kiConsts) Examples.panics Examples.panics
           (set_vp Examples.world0 2 Examples.offscreenVp) 2 Examples.offscreenVp);
    try reflexivity.
  right. exists 0%nat, Examples.mainVp. repeat split.
Defined.

Lemma DrawIntoParent_nil_parent_witness :
  DrawIntoParent (H := kiConsts) Examples.world0 2 None = None.
Proof.
  apply (DrawIntoParent_nil_parent (H := kiConsts) Examples.world0 2 Examples.nestedVp).
  reflexivity.
Defined.

Lemma DrawIntoParent_no_Par_witness :
  exists w' dim',
    DrawIntoParent (H := kiConsts) (set_vp Examples.world0 2 Examples.looseVp) 2 (Some 0%nat)
      = Some w' /\
    images w' !! 0%nat = Some dim' /\
    Bounds (RGBA_of dim') = Examples.rect 0 0 2 2 /\
    forall q,
      Pix (RGBA_of dim') q =
      if In q (Examples.rect 1 1 3 3) && In q (Examples.rect 0 0 2 2)
         && In (Point_Sub q (mkPoint 1 1)) (Examples.rect 0 0 2 2)
      then over Examples.red Examples.white
      else Examples.white.
Proof.
  apply (DrawIntoParent_no_Par (H := kiConsts) (set_vp Examples.world0 2 Examples.looseVp)
           2 0 2 0 Examples.looseVp Examples.mainVp
           (mkOSImg (Examples.solid (mkPoint 2 2) Examples.red) false)
           (mkOSImg (Examples.solid (mkPoint 2 2) Examples.white) false));
    reflexivity.
Defined.

Lemma DrawIntoParent_frame_witness :
  exists w',
    DrawIntoParent (H := kiConsts) Examples.world0 1 (Some 0%nat) = Some w' /\
    vps w' = vps Examples.world0 /\
    events w' = [] /\
    nextImage w' = 3%nat /\
    forall k,
      (fun im => (Bounds (RGBA_of im), released im)) <$> images w' !! k =
      (fun im => (Bounds (RGBA_of im), released im)) <$> images Examples.world0 !! k.
Proof.
  eexists. split; [vm_compute; reflexivity|].
  apply (DrawIntoParent_frame (H := kiConsts) Examples.world0 _ 1 (Some 0%nat)).
  reflexivity.
Defined.

End WindowFacts.

(** ** More on the signal classifier *)

Module SignalMore.
Import image gi Trace SignalFacts.




Lemma bracketed_region_upload (id : nat) (vp : Viewport2D) (gn : Node2DBase) :
  bracketed_from None (region_upload id vp gn) = true.
Proof.
  unfold region_upload, upload_events. destruct (Win vp); [|reflexivity].
  simpl. now rewrite Nat.eqb_refl.
Qed.

Section Signal.
Context `{Consts}.




(** X20: tracing only prints.  With [Update2DTrace] on, [SignalViewport2D]
    returns or panics exactly as with it off, and leaves the same
    viewports, images and events apart from the [Printf] lines. *)
Theorem SignalViewport2D_trace_only_prints (w : World) (vpki send : Ki) (sig : Z)
    (data : Data) :
  outcome (SignalViewport2D (with_Update2DTrace w true) vpki send sig data) =
  outcome (SignalViewport2D (with_Update2DTrace w false) vpki send sig data).
Proof.
  unfold SignalViewport2D.
  destruct (KiToNode2D vpki) as [vpgi|]; [|reflexivity].
  destruct (AsViewport2D vpgi) as [id|]; [|reflexivity].
  destruct (KiToNode2D send) as [gii|]; [|reflexivity].
  destruct (IsDeleted (AsNode2D gii) || IsDestroyed (AsNode2D gii)); [reflexivity|].
  destruct (IsUpdatingAtomic (AsNode2D gii)); [reflexivity|].
  cbn [vps with_Update2DTrace].
  destruct (vps w !! id) as [vp|] eqn:Hvp; [|reflexivity]. simpl.
  destruct (fullRend sig data) as [full|]; [|reflexivity]. simpl.
  unfold ReRender2DNode, ReRender2DAnchor.
  destruct full;
    [|destruct (ReRender2D gii) as [[rrn|] layout];
      [destruct layout|destruct (ParentReRenderAnchor gii)]];
    unfold outcome, upload_region; simpl; rewrite ?Hvp; simpl;
    destruct (Win vp); simpl; rewrite ?List.filter_app; simpl;
    rewrite <- ?app_assoc; reflexivity.
Qed.

(** X21: a receiver that is no viewport, or a sender that is no [Node2D],
    is passed over: nothing is rendered, logged or changed, whatever the
    signal. *)
Theorem SignalViewport2D_no_viewport_or_sender (w : World) (vpki send : Ki) (sig : Z)
    (data : Data) :
  KiToNode2D vpki ≫= AsViewport2D = None \/ KiToNode2D send = None ->
  SignalViewport2D w vpki send sig data = Some w.
Proof.
  unfold SignalViewport2D. intros [Hv | Hs].
  - destruct (KiToNode2D vpki) as [vpgi|]; [|reflexivity]. simpl in Hv.
    now rewrite Hv.
  - destruct (KiToNode2D vpki) as [vpgi|]; [|reflexivity].
    destruct (AsViewport2D vpgi); [|reflexivity]. now rewrite Hs.
Qed.

(** X22: a [NodeSignalUpdated] signal whose data is not an [int64] makes
    the classifier panic at [data.(int64)], once the sender has passed the
    liveness tests. *)
Theorem SignalViewport2D_data_not_int64 (w : World) (vpn gii : Node2D) (id : nat) :
  AsViewport2D vpn = Some id ->
  IsDeleted (AsNode2D gii) = false ->
  IsDestroyed (AsNode2D gii) = false ->
  IsUpdatingAtomic (AsNode2D gii) = false ->
  SignalViewport2D w (KiIsNode2D vpn) (KiIsNode2D gii) NodeSignalUpdated DataOther = None.
Proof.
  intros Hid Hdel Hdes Hupd. unfold SignalViewport2D. simpl.
  rewrite Hid, Hdel, Hdes, Hupd. simpl.
  destruct (vps w !! id); [|reflexivity]. simpl.
  unfold fullRend. now rewrite Z.eqb_refl.
Qed.


(** X24: the receiver that [Init2D] connects answers every signal of a
    live viewport with one full render of the receiving viewport's tree;
    the liveness that is tested is that of the viewport that connected. *)
Theorem Init2D_receiver_live (w : World) (id rid : nat) (vp rv : Viewport2D) (rn : Node2D) :
  vps w !! id = Some vp ->
  AsViewport2D rn = Some rid ->
  vps w !! rid = Some rv ->
  IsDeleted (Base vp) = false ->
  IsDestroyed (Base vp) = false ->
  Init2D_receiver w id (KiIsNode2D rn) =
  Some (emit w
          ((if Update2DTrace w
            then [Printf "Update: Viewport2D: full render due to signal"]
            else [])
           ++ [FullRender2DTree (This (Base rv))])).
Proof.
  intros Hvp Hr Hrv Hdel Hdes. unfold Init2D_receiver. simpl.
  rewrite Hr. simpl. rewrite Hrv, Hvp. simpl. rewrite Hdel, Hdes. simpl.
  destruct (Update2DTrace w); simpl; [now rewrite emit_emit | reflexivity].
Qed.

End Signal.



Lemma SignalViewport2D_no_viewport_or_sender_witness :
  SignalViewport2D (H := kiConsts) Examples.world0
    (KiIsNode2D (Examples.slider 0 true false None)) (KiIsNode2D Examples.mainNode) 1
    (DataInt64 256)
  = Some Examples.world0.
Proof.
  apply (SignalViewport2D_no_viewport_or_sender (H := kiConsts)). left. reflexivity.
Defined.

Lemma SignalViewport2D_data_not_int64_witness :
  SignalViewport2D (H := kiConsts) Examples.world0 (KiIsNode2D Examples.mainNode)
    (KiIsNode2D (Examples.slider 0 true false None)) 1 DataOther = None.
Proof.
  apply (SignalViewport2D_data_not_int64 (H := kiConsts) Examples.world0 Examples.mainNode
           (Examples.slider 0 true false None) 0); reflexivity.
Defined.


Lemma Init2D_receiver_live_witness :
  Init2D_receiver (H := kiConsts) Examples.world0 2 (KiIsNode2D Examples.mainNode)
  = Some (emit Examples.world0 [FullRender2DTree 0]).
Proof.
  apply (Init2D_receiver_live (H := kiConsts) Examples.world0 2 0 Examples.nestedVp
           Examples.mainVp Examples.mainNode); reflexivity.
Defined.

End SignalMore.

(** ** Popups and the overlay pass *)

Module OverlayFacts.
Import image draw gi DrawFacts ResizeFacts.

Lemma over_channel_Transparent :
  forallb (fun n => over_channel (Z.of_nat n) (0 * 257) (uint32 ((m - 0 * 257) * 257)) =? Z.of_nat n)
    (seq 0 256) = true.
Proof. vm_compute. reflexivity. Qed.

(** Nothing drawn over a pixel leaves the pixel. *)
Lemma over_Transparent (d : Color) : is_pixel d = true -> over Transparent d = d.
Proof.
  assert (Hc : forall x, is_uint8 x = true ->
                 over_channel x (0 * 257) (uint32 ((m - 0 * 257) * 257)) = x).
  { intros x Hx. unfold is_uint8 in Hx. apply andb_prop in Hx as [H0 H1].
    apply Z.leb_le in H0. apply Z.ltb_lt in H1.
    pose proof over_channel_Transparent as Hall. rewrite forallb_forall in Hall.
    specialize (Hall (Z.to_nat x)). rewrite Z2Nat.id in Hall by exact H0.
    apply Z.eqb_eq, Hall, in_seq. lia. }
  destruct d as [r g b a]. unfold is_pixel. simpl. intros Hd.
  apply andb_prop in Hd as [Hd Ha]. apply andb_prop in Hd as [Hd Hb].
  apply andb_prop in Hd as [Hr Hg].
  unfold over. cbn [R G B A Transparent].
  now rewrite (Hc r Hr), (Hc g Hg), (Hc b Hb), (Hc a Ha).
Qed.

Lemma DrawUniformSrc_Bounds (img : RGBA) (r : Rectangle) (c : Color) :
  Bounds (DrawUniformSrc img r c) = Bounds img.
Proof. unfold DrawUniformSrc. now destruct (Empty _). Qed.

(** The fill of [RenderOverlays] leaves no pixel of the buffer set. *)
Lemma DrawUniformSrc_clear (img : RGBA) (q : Point) :
  In q (Bounds img) = true ->
  Pix (DrawUniformSrc img (Bounds img) Transparent) q = Transparent.
Proof.
  intros Hq. unfold DrawUniformSrc.
  destruct (Empty (Intersect (Bounds img) (Bounds img))) eqn:He.
  - pose proof (Empty_not_In _ q He) as Hn. rewrite In_Intersect, Hq in Hn.
    discriminate.
  - simpl. now rewrite In_Intersect, Hq.
Qed.

Lemma Release_lookup (w : World) (o k : nat) (im : OSImg) :
  images w !! k = Some im ->
  exists im', images (Release w o) !! k = Some im' /\ RGBA_of im' = RGBA_of im.
Proof.
  intros Hk. unfold Release. destruct (images w !! o) as [oi|] eqn:Ho; [|now exists im].
  simpl. destruct (Nat.eq_dec o k) as [->|Hne].
  - rewrite lookup_insert_eq. eexists. split; [reflexivity|]. simpl. congruence.
  - rewrite lookup_insert_ne by exact Hne. now exists im.
Qed.

(** What [Resize] leaves of a viewport that has a buffer: it still has
    one, its own or the fresh one, and every image that existed keeps its
    pixels. *)
Lemma Resize_keeps_a_buffer (w : World) (id b : nat) (vp : Viewport2D) (im : OSImg)
    (nwsz : Point) :
  vps w !! id = Some vp ->
  Pixels vp = Some b ->
  images w !! b = Some im ->
  exists w1 vp1 o im1,
    Resize w id nwsz = Some w1 /\
    vps w1 !! id = Some vp1 /\
    Base vp1 = Base vp /\
    Pixels vp1 = Some o /\
    images w1 !! o = Some im1 /\
    (forall j, j <> id -> vps w1 !! j = vps w !! j) /\
    (forall k imk, k <> nextImage w -> images w !! k = Some imk ->
       exists imk', images w1 !! k = Some imk' /\ RGBA_of imk' = RGBA_of imk) /\
    (o = nextImage w \/ (o = b /\ RGBA_of im1 = RGBA_of im)) /\
    ((X nwsz =? 0) || (Y nwsz =? 0) = false -> newImageErr w nwsz = None ->
     Size (Bounds (RGBA_of im1)) = nwsz).
Proof.
  intros Hvp Hp Him. unfold Resize. rewrite Hvp. simpl.
  destruct ((X nwsz =? 0) || (Y nwsz =? 0)) eqn:Hz.
  { exists w, vp, b, im. repeat split; try assumption; try discriminate.
    - intros k imk _ Hk. now exists imk.
    - now right. }
  rewrite Hp, Him. simpl.
  destruct (Point_eqb (Size (Bounds (RGBA_of im))) nwsz) eqn:Hs.
  { eexists _, _, b, im. split; [reflexivity|]. rewrite lookup_set_vp.
    split; [reflexivity|]. repeat split; try assumption.
    - intros j Hj. now apply lookup_set_vp_ne.
    - intros k imk _ Hk. now exists imk.
    - now right.
    - intros _ _. now apply Point_eqb_eq. }
  unfold Resize_alloc, NewImage.
  set (w0 := match OSImage vp with Some o => Release w o | None => w end).
  assert (He : newImageErr w0 = newImageErr w /\ nextImage w0 = nextImage w
               /\ vps w0 = vps w).
  { unfold w0, Release. destruct (OSImage vp) as [o|]; [|repeat split].
    destruct (images w !! o); repeat split. }
  destruct He as (He & Hn & Hv).
  assert (Hkeep : forall k imk, images w !! k = Some imk ->
                    exists imk', images w0 !! k = Some imk' /\ RGBA_of imk' = RGBA_of imk).
  { intros k imk Hk. unfold w0. destruct (OSImage vp) as [o|]; [|now exists imk].
    now apply Release_lookup. }
  rewrite He. destruct (newImageErr w nwsz) as [err|] eqn:Herr.
  - destruct (Hkeep b im Him) as (im' & Him' & Hrg).
    eexists _, _, b, im'. split; [reflexivity|]. simpl. rewrite lookup_insert_eq.
    split; [reflexivity|]. repeat split; try assumption; try discriminate.
    + intros j Hj. rewrite lookup_insert_ne by congruence. now rewrite Hv.
    + intros k imk _ Hk. now apply Hkeep.
    + now right.
  - eexists _, _, (nextImage w), _. split; [reflexivity|]. simpl.
    rewrite lookup_insert_eq. split; [reflexivity|]. rewrite Hn, lookup_insert_eq.
    repeat split.
    + intros j Hj. rewrite lookup_insert_ne by congruence. now rewrite Hv.
    + intros k imk Hk Hik. rewrite lookup_insert_ne by congruence. now apply Hkeep.
    + now left.
    + intros _ _. simpl. apply BufferFacts.Size_NewRGBA.
Qed.

Section Overlay.
Context `{Consts}.

Lemma Has_set (f flag : Z) :
  0 <= flag -> bitflag.Has (Z.lor f (Z.shiftl 1 flag)) flag = true.
Proof.
  intros Hf. unfold bitflag.Has. apply negb_true_iff, Z.eqb_neq. intros Hz.
  assert (Hb : Z.testbit (Z.land (Z.lor f (Z.shiftl 1 flag)) (Z.shiftl 1 flag)) flag = true).
  { rewrite Z.land_spec, Z.lor_spec, Z.shiftl_spec by exact Hf.
    rewrite Z.sub_diag. simpl. now rewrite orb_true_r. }
  rewrite Hz, Z.testbit_0_l in Hb. discriminate.
Qed.

(** The state after the head of [RenderOverlays], for a viewport that has
    a buffer. *)
Lemma RenderOverlays_clear_spec (w : World) (id b : nat) (vp : Viewport2D) (im : OSImg)
    (wsz : Point) :
  vps w !! id = Some vp ->
  Pixels vp = Some b ->
  images w !! b = Some im ->
  exists w1 vp1 o im1,
    RenderOverlays_clear w id wsz = Some w1 /\
    vps w1 !! id = Some vp1 /\
    Base vp1 = SetAsOverlay (Base vp) /\
    Pixels vp1 = Some o /\
    images w1 !! o = Some im1 /\
    (forall q, In q (Bounds (RGBA_of im1)) = true -> Pix (RGBA_of im1) q = Transparent) /\
    (forall j, j <> id -> vps w1 !! j = vps w !! j) /\
    (forall k imk, k <> nextImage w -> k <> b -> images w !! k = Some imk ->
       exists imk', images w1 !! k = Some imk' /\ RGBA_of imk' = RGBA_of imk) /\
    ((X wsz =? 0) || (Y wsz =? 0) = false -> newImageErr w wsz = None ->
     Size (Bounds (RGBA_of im1)) = wsz).
Proof.
  intros Hvp Hp Him. unfold RenderOverlays_clear. rewrite Hvp. simpl.
  set (vp0 := with_Base vp (SetAsOverlay (Base vp))).
  destruct (Resize_keeps_a_buffer (set_vp w id vp0) id b vp0 im wsz)
    as (w1 & vp1 & o & im1 & Hr & Hv1 & Hb1 & Hp1 & Hi1 & Hoth & Hkeep & Ho & Hsz);
    [apply lookup_set_vp | exact Hp | exact Him |].
  rewrite Hr. simpl. rewrite Hv1. simpl. rewrite Hp1. simpl. rewrite Hi1. simpl.
  eexists _, vp1, o, _. split; [reflexivity|]. simpl.
  rewrite lookup_insert_eq. repeat split; try assumption.
  - intros q Hq. cbn [RGBA_of] in *. rewrite DrawUniformSrc_Bounds in Hq.
    now apply DrawUniformSrc_clear.
  - intros j Hj. rewrite (Hoth j Hj). now apply lookup_set_vp_ne.
  - intros k imk Hk Hkb Hik.
    assert (Hko : k <> o) by (destruct Ho as [-> | [-> _]]; assumption).
    rewrite lookup_insert_ne by congruence. now apply Hkeep.
  - intros Hz Hok. cbn [RGBA_of]. rewrite DrawUniformSrc_Bounds. now apply Hsz.
Qed.

(** X25: the overlay pass starts from an empty overlay.  For a viewport
    that has a buffer, the head of [RenderOverlays] returns with the
    viewport flagged as an overlay and with a buffer that shows no pixel at
    all, whatever it held and whether it was kept, replaced or could not be
    replaced; when the window size has no zero dimension and the allocation
    succeeds, the buffer has the window's size. *)
Theorem RenderOverlays_clear_transparent (w : World) (id b : nat) (vp : Viewport2D)
    (im : OSImg) (wsz : Point) :
  0 <= Overlay ->
  vps w !! id = Some vp ->
  Pixels vp = Some b ->
  images w !! b = Some im ->
  exists w1 vp1 o im1,
    RenderOverlays_clear w id wsz = Some w1 /\
    vps w1 !! id = Some vp1 /\
    IsOverlay vp1 = true /\
    Pixels vp1 = Some o /\
    images w1 !! o = Some im1 /\
    (forall q, RGBAAt (RGBA_of im1) q = Transparent) /\
    ((X wsz =? 0) || (Y wsz =? 0) = false -> newImageErr w wsz = None ->
     Size (Bounds (RGBA_of im1)) = wsz).
Proof.
  intros Hov Hvp Hp Him.
  destruct (RenderOverlays_clear_spec w id b vp im wsz Hvp Hp Him)
    as (w1 & vp1 & o & im1 & Hr & Hv1 & Hb1 & Hp1 & Hi1 & Hclr & _ & _ & Hsz).
  exists w1, vp1, o, im1. repeat split; try assumption.
  - unfold IsOverlay. rewrite Hb1. simpl. now apply Has_set.
  - intros q. unfold RGBAAt.
    destruct (In q (Bounds (RGBA_of im1))) eqn:Hq; [now apply Hclr | reflexivity].
Qed.

(** X26: an overlay that has just been cleared adds nothing to the image
    under it.  After the head of [RenderOverlays], drawing the overlay into
    its parent viewport leaves every pixel of the parent's buffer as it
    was. *)
Theorem RenderOverlays_clear_DrawIntoParent (w : World) (id pid b db : nat)
    (vp par : Viewport2D) (im dim : OSImg) (wsz : Point) :
  0 <= Overlay ->
  vps w !! id = Some vp ->
  Pixels vp = Some b ->
  images w !! b = Some im ->
  pid <> id ->
  vps w !! pid = Some par ->
  Pixels par = Some db ->
  images w !! db = Some dim ->
  db <> b ->
  db <> nextImage w ->
  (forall q, is_pixel (Pix (RGBA_of dim) q) = true) ->
  exists w1 w2 dim2,
    RenderOverlays_clear w id wsz = Some w1 /\
    DrawIntoParent w1 id (Some pid) = Some w2 /\
    images w2 !! db = Some dim2 /\
    Bounds (RGBA_of dim2) = Bounds (RGBA_of dim) /\
    forall q, Pix (RGBA_of dim2) q = Pix (RGBA_of dim) q.
Proof.
  intros Hov Hvp Hp Him Hne Hpar Hpp Hdim Hdb Hdn Hpix.
  destruct (RenderOverlays_clear_spec w id b vp im wsz Hvp Hp Him)
    as (w1 & vp1 & o & im1 & Hr & Hv1 & Hb1 & Hp1 & Hi1 & Hclr & Hoth & Hkeep & _).
  destruct (Hkeep db dim Hdn Hdb Hdim) as (dim1 & Hd1 & Hrg).
  exists w1. unfold DrawIntoParent. rewrite Hv1. simpl.
  assert (Hio : IsOverlay vp1 = true).
  { unfold IsOverlay. rewrite Hb1. simpl. now apply Has_set. }
  rewrite Hio, (Hoth pid Hne), Hpar. simpl.
  unfold Pixels_Bounds. rewrite Hp1. simpl. rewrite Hi1. simpl.
  rewrite (ComposeFacts.draw_into_spec _ _ _ _ _ _ _ _ _ Hp1 Hi1 Hpp Hd1).
  eexists _, _. split; [exact Hr|]. split; [reflexivity|]. simpl.
  rewrite lookup_insert_eq. split; [reflexivity|]. simpl.
  rewrite Draw_Bounds, Hrg. split; [reflexivity|].
  intros q. rewrite Draw_Pix.
  destruct (In q _ && In q _ && In _ (Bounds (RGBA_of im1))) eqn:Hin; [|reflexivity].
  apply andb_prop in Hin as [_ Hsrc].
  rewrite (Hclr _ Hsrc). apply over_Transparent, Hpix.
Qed.

Section Kids.
Variables I S R I' S' R' : World -> Node2DBase -> option World.

(** X27: a viewport without a buffer does not survive an overlay pass that
    gives it none: with a window size that has a zero dimension, or when
    the allocation fails, [RenderOverlays] panics at the fill on the nil
    [Pixels], before any child is looked at. *)
Theorem RenderOverlays_no_buffer (w : World) (id : nat) (vp : Viewport2D)
    (wsz : Point) (Kids : list Child) :
  vps w !! id = Some vp ->
  Pixels vp = None ->
  (X wsz =? 0) || (Y wsz =? 0) = true \/ newImageErr w wsz <> None ->
  RenderOverlays I S R w id wsz Kids = None.
Proof.
  intros Hvp Hp Hbad. unfold RenderOverlays.
  assert (Hc : RenderOverlays_clear w id wsz = None); [|now rewrite Hc].
  unfold RenderOverlays_clear. rewrite Hvp. simpl.
  unfold Resize. rewrite lookup_set_vp. simpl.
  destruct ((X wsz =? 0) || (Y wsz =? 0)) eqn:Hz.
  { simpl. rewrite lookup_insert_eq. simpl. now rewrite Hp. }
  destruct Hbad as [Hbad | Herr]; [discriminate|].
  rewrite Hp. simpl. unfold Resize_alloc, NewImage. simpl.
  assert (He : forall w0 o, newImageErr (Release w0 o) = newImageErr w0).
  { intros w0 o. unfold Release. now destruct (images w0 !! o). }
  destruct (OSImage vp) as [o|]; rewrite ?He; simpl;
    (destruct (newImageErr w wsz) as [err|]; [|congruence]);
    simpl; rewrite lookup_insert_eq; simpl; now rewrite Hp.
Qed.

(** X28: the loop of [RenderOverlays] only ever hands overlay nodes to
    [Init2D], [Style2D] and [Render2D]: two sets of methods that agree on
    the nodes flagged as overlays give the same pass, since a child that is
    not yet an overlay is flagged before it is initialised, styled and
    rendered, and a child that is not a [Node2D] is skipped. *)
Theorem RenderOverlays_kids_overlay_only (w : World) (Kids : list Child) :
  0 <= Overlay ->
  (forall w0 gi, bitflag.Has (Flag gi) Overlay = true ->
                 I w0 gi = I' w0 gi /\ S w0 gi = S' w0 gi /\ R w0 gi = R' w0 gi) ->
  RenderOverlays_kids I S R w Kids = RenderOverlays_kids I' S' R' w Kids.
Proof.
  intros Hov Hagree. revert w. induction Kids as [|k ks IH]; intros w; [reflexivity|].
  cbn [RenderOverlays_kids].
  assert (Hk : RenderOverlays_kid I S R w k = RenderOverlays_kid I' S' R' w k).
  { destruct k as [|gi ly]; [reflexivity|]. unfold RenderOverlays_kid.
    destruct (bitflag.Has (Flag gi) Overlay) eqn:Hg; simpl.
    - now destruct (Hagree w gi Hg) as (_ & _ & ->).
    - assert (Hs : bitflag.Has (Flag (SetAsOverlay gi)) Overlay = true)
        by (simpl; now apply Has_set).
      destruct (Hagree w (SetAsOverlay gi) Hs) as (-> & _ & _).
      destruct (I' w (SetAsOverlay gi)) as [w1|]; [|reflexivity]. simpl.
      destruct (Hagree w1 (SetAsOverlay gi) Hs) as (_ & -> & _).
      destruct (S' w1 (SetAsOverlay gi)) as [w2|]; [|reflexivity]. simpl.
      now destruct (Hagree w2 (SetAsOverlay gi) Hs) as (_ & _ & ->). }
  rewrite Hk. destruct (RenderOverlays_kid I' S' R' w k) as [w1|]; [|reflexivity].
  simpl. apply IH.
Qed.

(** X29: children that are overlays already are rendered and nothing
    else: when every [Node2D] child carries the overlay flag, the pass does
    not depend on what [Init2D] and [Style2D] would do. *)
Theorem RenderOverlays_kids_initialized (w : World) (Kids : list Child) :
  (forall gi ly, List.In (ChildNode2D gi ly) Kids -> bitflag.Has (Flag gi) Overlay = true) ->
  RenderOverlays_kids I S R w Kids = RenderOverlays_kids I' S' R w Kids.
Proof.
  revert w. induction Kids as [|k ks IH]; intros w Hall; [reflexivity|].
  cbn [RenderOverlays_kids].
  assert (Hk : RenderOverlays_kid I S R w k = RenderOverlays_kid I' S' R w k).
  { destruct k as [|gi ly]; [reflexivity|]. unfold RenderOverlays_kid.
    now rewrite (Hall gi ly (or_introl eq_refl)). }
  rewrite Hk. destruct (RenderOverlays_kid I' S' R w k) as [w1|]; [|reflexivity].
  simpl. apply IH. intros gi ly Hin. apply (Hall gi ly). now right.
Qed.

End Kids.

(** X30: [DeletePopup] destroys the popup and never its menu items.  It
    returns unless its only child is not a [Node2D] while children are to
    be kept; it disconnects the popup from its parent, and its last call
    destroys the popup; before that it makes at most one call, which
    deletes the children of the main layout without destroying them, and
    only when [VpFlagPopupDestroyAll] is not set and the popup has exactly
    one child, a layout.  No image and no other viewport is touched. *)
Theorem DeletePopup_calls (w : World) (id : nat) (vp : Viewport2D) (Kids : list Child) :
  vps w !! id = Some vp ->
  bitflag.Has (Flag (Base vp)) VpFlagPopupDestroyAll = true \/ Kids <> [ChildOther] ->
  exists w' vp' pre,
    DeletePopup w id Kids = Some (w', pre ++ [Destroy (This (Base vp))]) /\
    vps w' !! id = Some vp' /\
    Par (Base vp') = None /\
    Pixels vp' = Pixels vp /\
    images w' = images w /\
    (forall j, j <> id -> vps w' !! j = vps w !! j) /\
    (pre = [] \/
     exists gi ly,
       pre = [DeleteChildren ly false] /\
       Kids = [ChildNode2D gi (Some ly)] /\
       bitflag.Has (Flag (Base vp)) VpFlagPopupDestroyAll = false).
Proof.
  intros Hvp Hret. unfold DeletePopup. rewrite Hvp. simpl.
  assert (Hfin : forall pre,
            (pre = [] \/
             exists gi ly,
               pre = [DeleteChildren ly false] /\
               Kids = [ChildNode2D gi (Some ly)] /\
               bitflag.Has (Flag (Base vp)) VpFlagPopupDestroyAll = false) ->
            exists w' vp' pre0,
              Some (set_vp w id (with_Base vp (with_Par (Base vp) None)),
                    pre ++ [Destroy (This (Base vp))])
              = Some (w', pre0 ++ [Destroy (This (Base vp))]) /\
              vps w' !! id = Some vp' /\
              Par (Base vp') = None /\
              Pixels vp' = Pixels vp /\
              images w' = images w /\
              (forall j, j <> id -> vps w' !! j = vps w !! j) /\
              (pre0 = [] \/
               exists gi ly,
                 pre0 = [DeleteChildren ly false] /\
                 Kids = [ChildNode2D gi (Some ly)] /\
                 bitflag.Has (Flag (Base vp)) VpFlagPopupDestroyAll = false)).
  { intros pre Hpre. eexists _, _, pre. split; [reflexivity|].
    rewrite lookup_set_vp. repeat split; try assumption.
    intros j Hj. now apply lookup_set_vp_ne. }
  destruct (bitflag.Has (Flag (Base vp)) VpFlagPopupDestroyAll) eqn:Hall; simpl.
  { apply (Hfin []). now left. }
  destruct Hret as [Hret | Hret]; [discriminate|].
  destruct Kids as [|[|gi [ly|]] [|k2 ks]]; simpl;
    try (apply (Hfin []); now left).
  - congruence.
  - apply (Hfin [DeleteChildren ly false]). right. now exists gi, ly.
Qed.

End Overlay.

Lemma RenderOverlays_clear_transparent_witness :
  exists w1 vp1 o im1,
    RenderOverlays_clear (H := kiConsts) Examples.world0 1 (mkPoint 4 3) = Some w1 /\
    vps w1 !! 1%nat = Some vp1 /\
    IsOverlay (H := kiConsts) vp1 = true /\
    Pixels vp1 = Some o /\
    images w1 !! o = Some im1 /\
    (forall q, RGBAAt (RGBA_of im1) q = Transparent) /\
    ((X (mkPoint 4 3) =? 0) || (Y (mkPoint 4 3) =? 0) = false ->
     newImageErr Examples.world0 (mkPoint 4 3) = None ->
     Size (Bounds (RGBA_of im1)) = mkPoint 4 3).
Proof.
  apply (RenderOverlays_clear_transparent (H := kiConsts) Examples.world0 1 1
           Examples.overlayVp (mkOSImg (Examples.solid (mkPoint 2 2) Examples.red) false)
           (mkPoint 4 3)); try reflexivity.
  vm_compute. discriminate.
Defined.

Lemma RenderOverlays_no_buffer_witness :
  RenderOverlays (H := kiConsts) Examples.marks Examples.marks Examples.marks
    Examples.world0 4 (mkPoint 800 0) Examples.twoKids = None.
Proof.
  apply (RenderOverlays_no_buffer (H := kiConsts) Examples.marks Examples.marks
           Examples.marks Examples.world0 4 Examples.freshVp (mkPoint 800 0)
           Examples.twoKids); try reflexivity.
  left. reflexivity.
Defined.

Lemma RenderOverlays_clear_DrawIntoParent_witness :
  exists w1 w2 dim2,
    RenderOverlays_clear (H := kiConsts) Examples.world0 1 (mkPoint 2 2) = Some w1 /\
    DrawIntoParent (H := kiConsts) w1 1 (Some 0%nat) = Some w2 /\
    images w2 !! 0%nat = Some dim2 /\
    Bounds (RGBA_of dim2) = Examples.rect 0 0 2 2 /\
    forall q, Pix (RGBA_of dim2) q = Examples.white.
Proof.
  apply (RenderOverlays_clear_DrawIntoParent (H := kiConsts) Examples.world0 1 0 1 0
           Examples.overlayVp Examples.mainVp
           (mkOSImg (Examples.solid (mkPoint 2 2) Examples.red) false)
           (mkOSImg (Examples.solid (mkPoint 2 2) Examples.white) false)
           (mkPoint 2 2)); try reflexivity; try (vm_compute; discriminate);
    try (intros Hx; discriminate Hx).
Defined.

Lemma RenderOverlays_kids_overlay_only_witness :
  RenderOverlays_kids (H := kiConsts) Examples.onlyOverlays Examples.onlyOverlays
    Examples.onlyOverlays Examples.world0 Examples.twoKids
  = RenderOverlays_kids (H := kiConsts) Examples.marks Examples.marks Examples.marks
      Examples.world0 Examples.twoKids.
Proof.
  apply (RenderOverlays_kids_overlay_only (H := kiConsts) Examples.onlyOverlays
           Examples.onlyOverlays Examples.onlyOverlays Examples.marks Examples.marks
           Examples.marks Examples.world0 Examples.twoKids).
  - vm_compute. discriminate.
  - intros w0 gi Hg. unfold Examples.onlyOverlays.
    rewrite Hg. repeat split.
Defined.

Lemma RenderOverlays_kids_initialized_witness :
  RenderOverlays_kids (H := kiConsts) Examples.marks Examples.marks Examples.marks
    Examples.world0 [ChildOther; ChildNode2D (Base Examples.overlayVp) None]
  = RenderOverlays_kids (H := kiConsts) (fun _ _ => None) (fun _ _ => None) Examples.marks
      Examples.world0 [ChildOther; ChildNode2D (Base Examples.overlayVp) None].
Proof.
  apply (RenderOverlays_kids_initialized (H := kiConsts) Examples.marks Examples.marks
           Examples.marks (fun _ _ => None) (fun _ _ => None) Examples.world0
           [ChildOther; ChildNode2D (Base Examples.overlayVp) None]).
  intros gi ly [Hin | [Hin | []]]; [discriminate|]. now inversion Hin.
Defined.

Lemma DeletePopup_calls_witness :
  exists w' vp' pre,
    DeletePopup (H := kiConsts) Examples.worldPopup 5
      [ChildNode2D Examples.frameBase (Some 6%nat)]
    = Some (w', pre ++ [Destroy 5]) /\
    vps w' !! 5%nat = Some vp' /\
    Par (Base vp') = None /\
    Pixels vp' = Some 3%nat /\
    images w' = images Examples.worldPopup /\
    (forall j, j <> 5%nat -> vps w' !! j = vps Examples.worldPopup !! j) /\
    (pre = [] \/
     exists gi ly,
       pre = [DeleteChildren ly false] /\
       [ChildNode2D Examples.frameBase (Some 6%nat)] = [ChildNode2D gi (Some ly)] /\
       bitflag.Has (Flag (Base Examples.popupVp)) (VpFlagPopupDestroyAll (H := kiConsts))
       = false).
Proof.
  apply (DeletePopup_calls (H := kiConsts) Examples.worldPopup 5 Examples.popupVp
           [ChildNode2D Examples.frameBase (Some 6%nat)]); [reflexivity|].
  right. discriminate.
Defined.

End OverlayFacts.
